(** * UE5-Pyside6: the PySide6 installer and uninstaller for the Unreal editor

    A shallow embedding of [UE_installPyside6.py] and [UE_uninstallPyside6.py].

    The two scripts run inside the editor's Python.  They read the process
    globals ([sys.platform], [sys.executable], [sys.argv]), query and change
    the file system, spawn child processes and write to the editor's log.
    The embedding threads an explicit [State] (file system, importable
    modules, log, spawn requests) through a state-and-exception monad [M];
    what the scripts cannot influence (the platform, how a child process
    behaves) is gathered in an environment [Env].

    Layout: [Py] models the fragments of the Python library the scripts call,
    [Common] holds the functions that are literally the same in both scripts,
    [Install] and [Uninstall] hold the rest of each script.  The theorems
    follow the definitions. *)

From Stdlib Require Import String Ascii List Bool ZArith Lia.
Import ListNotations.
Open Scope string_scope.

(* ================================================================= *)
(** ** The Python library, as far as the scripts use it *)

Module Py.

(** *** [str] methods *)

Definition lower_ascii (c : ascii) : ascii :=
  let n := nat_of_ascii c in
  if (65 <=? n)%nat && (n <=? 90)%nat then ascii_of_nat (n + 32) else c.

(** [s.lower()], on ASCII letters. *)
Fixpoint lower (s : string) : string :=
  match s with
  | EmptyString => EmptyString
  | String c r => String (lower_ascii c) (lower r)
  end.

(** [s.startswith(p)]. *)
Definition startswith (s p : string) : bool := String.prefix p s.

(** [sep.join(l)]. *)
Definition join (sep : string) (l : list string) : string := String.concat sep l.

Definition is_space (c : ascii) : bool :=
  let n := nat_of_ascii c in
  ((9 <=? n)%nat && (n <=? 13)%nat) || ((28 <=? n)%nat && (n <=? 32)%nat).

Fixpoint lstrip (s : string) : string :=
  match s with
  | EmptyString => EmptyString
  | String c r => if is_space c then lstrip r else s
  end.

Definition reverse (s : string) : string :=
  string_of_list_ascii (rev (list_ascii_of_string s)).

(** [s.strip()]. *)
Definition strip (s : string) : string := reverse (lstrip (reverse (lstrip s))).

(** Truth value of an [Optional[str]] and of an [Optional[List[str]]]:
    [None] and the empty value are false. *)
Definition truthy_str (o : option string) : bool :=
  match o with
  | Some s => negb (String.eqb s "")
  | None => false
  end.

Definition truthy_list {A : Type} (o : option (list A)) : bool :=
  match o with
  | Some (_ :: _) => true
  | _ => false
  end.

(** *** Exceptions

    The three classes the scripts can meet: [IndexError] from
    [Path.parents[k]], [OSError] (with its subclasses [FileNotFoundError]
    and [PermissionError]) from the file system and from a child that cannot
    be started, [subprocess.CalledProcessError] from a child that exits with
    a non-zero code under [check=True].  All three derive from
    [Exception]. *)
Inductive exn : Type :=
| IndexError
| OSError (filename : string)
| CalledProcessError (returncode : Z) (cmd : list string).

Inductive result (A : Type) : Type :=
| Ok (a : A)
| Raise (e : exn).
Arguments Ok {A} a.
Arguments Raise {A} e.

(** *** [pathlib]

    A path is its anchor (drive and root, [""] for a relative path) and the
    names after it, as [PurePath] stores them. *)
Record Path : Type := mkPath { anchor : string; names : list string }.

Fixpoint names_eqb (a b : list string) : bool :=
  match a, b with
  | [], [] => true
  | x :: a', y :: b' => String.eqb x y && names_eqb a' b'
  | _, _ => false
  end.

Definition Path_eqb (p q : Path) : bool :=
  String.eqb (anchor p) (anchor q) && names_eqb (names p) (names q).

(** [p / name], for a [name] that is a single component. *)
Definition div (p : Path) (name : string) : Path :=
  mkPath (anchor p) (names p ++ [name]).

(** [p.name]: the last component, [""] when there is none. *)
Definition name (p : Path) : string := last (names p) "".

(** [p.parent]. *)
Definition parent (p : Path) : Path :=
  mkPath (anchor p) (removelast (names p)).

(** [p.parents[k]]: there are as many ancestors as names; an index past
    them raises [IndexError]. *)
Definition parents (p : Path) (k : nat) : result Path :=
  if (k <? length (names p))%nat
  then Ok (mkPath (anchor p) (firstn (length (names p) - 1 - k) (names p)))
  else Raise IndexError.

(** The path flavour: [PureWindowsPath] where [sys.platform] starts with
    [win], [PurePosixPath] elsewhere. *)
Definition is_sep (windows : bool) (c : ascii) : bool :=
  Ascii.eqb c "/"%char || (windows && Ascii.eqb c "\"%char).

Definition sep (windows : bool) : string := if windows then "\" else "/".

(** Splitting at separators; [cur] is the component read so far, reversed. *)
Fixpoint split_names (windows : bool) (cur : list ascii) (s : string) : list string :=
  let close := string_of_list_ascii (rev cur) in
  let keep := negb (String.eqb close "") && negb (String.eqb close ".") in
  match s with
  | EmptyString => if keep then [close] else []
  | String c r =>
      if is_sep windows c
      then (if keep then [close] else []) ++ split_names windows [] r
      else split_names windows (c :: cur) r
  end.

(** Up to the first separator: what stands before it and, when there is
    one, what follows it. *)
Fixpoint until_sep (windows : bool) (s : string) : string * option string :=
  match s with
  | EmptyString => ("", None)
  | String c r =>
      if is_sep windows c then ("", Some r)
      else let (a, b) := until_sep windows r in (String c a, b)
  end.

Definition is_letter (c : ascii) : bool :=
  ((65 <=? nat_of_ascii c)%nat && (nat_of_ascii c <=? 90)%nat)
  || ((97 <=? nat_of_ascii c)%nat && (nat_of_ascii c <=? 122)%nat).

(** A Windows path that begins with two separators, after them: the drive
    [\\server\share] and what follows it, when server and share are not
    parted by two separators in a row. *)
Definition unc (r : string) : option (string * string) :=
  match until_sep true r with
  | (server, Some r1) =>
      if String.eqb server "" then None
      else
        let (share, rest) := until_sep true r1 in
        match rest with
        | Some t => if String.eqb share "" then None
                    else Some ("\\" ++ server ++ "\" ++ share, t)
        | None => Some ("\\" ++ server ++ "\" ++ share, "")
        end
  | (_, None) => None
  end.

(** [Path(s)]: empty components and [.] are dropped.  On POSIX a leading
    separator is the root, and exactly two of them are the root [//].  On
    Windows a leading letter and [:] are the drive, a separator after it (or
    at the start) is the root [\], and [\\server\share] is a drive with the
    root after it.  (The prefix [\\?\UNC\] of extended paths is not told
    apart from a server named [?].) *)
Definition PurePath (windows : bool) (s : string) : Path :=
  if windows then
    match s with
    | String a (String b r) =>
        if is_sep true a && is_sep true b then
          match unc r with
          | Some (drive, rest) => mkPath (drive ++ "\") (split_names true [] rest)
          | None => mkPath "\" (split_names true [] r)
          end
        else if Ascii.eqb b ":" && is_letter a then
          match r with
          | String c r' =>
              if is_sep true c
              then mkPath (String a (String ":" "\")) (split_names true [] r')
              else mkPath (String a ":") (split_names true [] r)
          | EmptyString => mkPath (String a ":") []
          end
        else if is_sep true a then mkPath "\" (split_names true [] (String b r))
        else mkPath "" (split_names true [] s)
    | String a EmptyString =>
        if is_sep true a then mkPath "\" [] else mkPath "" (split_names true [] s)
    | EmptyString => mkPath "" []
    end
  else
    match s with
    | String "/" (String "/" r) =>
        match r with
        | String "/" _ => mkPath "/" (split_names false [] r)
        | _ => mkPath "//" (split_names false [] r)
        end
    | String "/" r => mkPath "/" (split_names false [] r)
    | _ => mkPath "" (split_names false [] s)
    end.

(** [str(p)]. *)
Definition str (windows : bool) (p : Path) : string :=
  match anchor p, names p with
  | "", [] => "."
  | a, l => a ++ join (sep windows) l
  end.

(** *** The file system

    An entry per existing path, in directory-listing order.  [x_ok] is the
    answer of [os.access(p, os.X_OK)]; [locked] says that the operating
    system refuses to remove the entry (a permission or sharing
    violation). *)
Inductive kind : Type := RegularFile | Directory.

Record node : Type := mkNode { nkind : kind; x_ok : bool; locked : bool }.

Definition FS : Type := list (Path * node).

Fixpoint stat (fs : FS) (p : Path) : option node :=
  match fs with
  | [] => None
  | (q, n) :: r => if Path_eqb q p then Some n else stat r p
  end.

(** [p.exists()], [p.is_file()], [p.is_dir()], [os.access(p, os.X_OK)]. *)
Definition exists_ (fs : FS) (p : Path) : bool :=
  match stat fs p with Some _ => true | None => false end.

Definition is_file (fs : FS) (p : Path) : bool :=
  match stat fs p with
  | Some n => match nkind n with RegularFile => true | Directory => false end
  | None => false
  end.

Definition is_dir (fs : FS) (p : Path) : bool :=
  match stat fs p with
  | Some n => match nkind n with Directory => true | RegularFile => false end
  | None => false
  end.

Definition os_access_X (fs : FS) (p : Path) : bool :=
  match stat fs p with Some n => x_ok n | None => false end.

(** *** Wildcards

    [fnmatch]: [*] stands for any run of characters, [?] for one character,
    [[seq]] and [[!seq]] for one character in or not in a set given by single
    characters and ranges [lo-hi]; a [[] that no []] closes is an ordinary
    character.  On Windows both sides are case-folded first. *)

(** Membership in the set between the brackets. *)
Fixpoint in_class (stuff : list ascii) (c : ascii) : bool :=
  match stuff with
  | [] => false
  | lo :: rest =>
      match rest with
      | dash :: hi :: rest' =>
          if Ascii.eqb dash "-"%char
          then ((nat_of_ascii lo <=? nat_of_ascii c)%nat
                && (nat_of_ascii c <=? nat_of_ascii hi)%nat)
               || in_class rest' c
          else Ascii.eqb lo c || in_class rest c
      | _ => Ascii.eqb lo c || in_class rest c
      end
  end.

(** After a [[]: is there a []] that closes the set?  A [!] and then a []]
    that come first belong to the set. *)
Definition closes (pat : list ascii) : bool :=
  let p1 := match pat with
            | b :: r => if Ascii.eqb b "!"%char then r else pat
            | [] => pat
            end in
  let p2 := match p1 with
            | b :: r => if Ascii.eqb b "]"%char then r else p1
            | [] => p1
            end in
  existsb (fun c => Ascii.eqb c "]"%char) p2.

(** Where the matcher stands: in the pattern proper, or between brackets with
    the members read so far ([first]: nothing read yet, so a []] is a member). *)
Inductive mode : Type :=
| Plain
| InClass (neg first : bool) (acc : list ascii).

Fixpoint glob_match (pat : list ascii) (m : mode) (nm : list ascii) {struct pat} : bool :=
  match pat with
  | [] =>
      match m with
      | Plain => match nm with [] => true | _ :: _ => false end
      | InClass _ _ _ => false
      end
  | c :: pat' =>
      match m with
      | InClass neg first acc =>
          if Ascii.eqb c "]"%char && negb first then
            match nm with
            | [] => false
            | d :: nm' => xorb neg (in_class (rev acc) d) && glob_match pat' Plain nm'
            end
          else glob_match pat' (InClass neg false (c :: acc)) nm
      | Plain =>
          if Ascii.eqb c "*"%char then
            (fix star (l : list ascii) : bool :=
               glob_match pat' Plain l
               || match l with [] => false | _ :: l' => star l' end) nm
          else if Ascii.eqb c "?"%char then
            match nm with
            | [] => false
            | _ :: nm' => glob_match pat' Plain nm'
            end
          else if Ascii.eqb c "["%char && closes pat' then
            match pat' with
            | b :: pat'' =>
                if Ascii.eqb b "!"%char
                then glob_match pat'' (InClass true true []) nm
                else glob_match pat' (InClass false true []) nm
            | [] => false
            end
          else
            match nm with
            | [] => false
            | d :: nm' => Ascii.eqb c d && glob_match pat' Plain nm'
            end
      end
  end.

Definition normcase (windows : bool) (s : string) : string :=
  if windows then lower s else s.

Definition fnmatch (windows : bool) (pat nm : string) : bool :=
  glob_match (list_ascii_of_string (normcase windows pat)) Plain
             (list_ascii_of_string (normcase windows nm)).

Definition hidden (nm : string) : bool := startswith nm ".".

(** [glob.has_magic]: the component holds one of [*], [?], [[]. *)
Definition has_magic (nm : string) : bool :=
  existsb (fun c => Ascii.eqb c "*"%char || Ascii.eqb c "?"%char || Ascii.eqb c "["%char)
          (list_ascii_of_string nm).

(** [p] is an entry of the directory [d]. *)
Definition is_child (d p : Path) : bool :=
  String.eqb (anchor p) (anchor d)
  && names_eqb (removelast (names p)) (names d)
  && negb (length (names p) =? 0)%nat.

Definition is_dir_node (n : node) : bool :=
  match nkind n with Directory => true | RegularFile => false end.

(** [glob._listdir(d, dironly)]: the entries of [d] in listing order, the
    directories alone when [dironly]. *)
Definition listdir (dironly : bool) (fs : FS) (d : Path) : list (Path * node) :=
  filter (fun e => is_child d (fst e) && (negb dironly || is_dir_node (snd e))) fs.

(** [glob._rlistdir(d, dironly)]: what lies below [d], each entry before
    what lies below it, hidden names left out.  [fuel] bounds the depth. *)
Fixpoint rlistdir (fuel : nat) (dironly : bool) (fs : FS) (d : Path) : list Path :=
  match fuel with
  | O => []
  | S n =>
      flat_map (fun e => if hidden (name (fst e)) then []
                         else fst e :: rlistdir n dironly fs (fst e))
               (listdir dironly fs d)
  end.

(** No path of the file system has more names than this: the depth that
    [rlistdir] needs at most. *)
Definition depth (fs : FS) : nat :=
  fold_right (fun e m => Nat.max (length (names (fst e))) m) 0 fs.

(** One component of the pattern in one directory: [glob._glob2] for [**],
    [glob._glob1] for a component with wildcards (a component that does not
    itself start with a dot does not match a hidden name), [glob._glob0] for
    a literal component. *)
Definition glob_in_dir (windows : bool) (fs : FS) (dironly : bool) (d : Path)
    (pat : string) : list Path :=
  if String.eqb pat "**" then d :: rlistdir (depth fs) dironly fs d
  else if has_magic pat then
    map fst (filter (fun e => (hidden pat || negb (hidden (name (fst e))))
                              && fnmatch windows pat (name (fst e)))
                    (listdir dironly fs d))
  else if exists_ fs (div d pat) then [div d pat] else [].

(** The components after the literal prefix, from left to right; all but the
    last one are asked for directories only. *)
Fixpoint glob_walk (windows : bool) (fs : FS) (dirs : list Path) (pats : list string)
    : list Path :=
  match pats with
  | [] => dirs
  | pat :: rest =>
      match rest with
      | [] => flat_map (fun d => glob_in_dir windows fs false d pat) dirs
      | _ :: _ =>
          glob_walk windows fs (flat_map (fun d => glob_in_dir windows fs true d pat) dirs)
                    rest
      end
  end.

(** The longest run of leading components without wildcards, and the rest. *)
Fixpoint literal_prefix (pats : list string) : list string * list string :=
  match pats with
  | [] => ([], [])
  | pat :: rest =>
      if has_magic pat then ([], pats)
      else let (lits, more) := literal_prefix rest in (pat :: lits, more)
  end.

(** [glob.glob(str(pattern), recursive=True)].  The literal prefix is taken
    as it stands, the other components are expanded one after the other, so
    the hits of a directory come before those of the directories below it.
    The hits are strings that name entries of the file system; [Path(h)] of a
    hit is that entry's path, so the hits are given as paths. *)
Definition glob_glob (windows : bool) (fs : FS) (pattern : Path) : list Path :=
  let (lits, rest) := literal_prefix (names pattern) in
  let start := mkPath (anchor pattern) lits in
  match rest with
  | [] => if exists_ fs start then [start] else []
  | _ :: _ => glob_walk windows fs [start] rest
  end.

(** [d.glob(pattern)] for a one-component pattern: the children of [d]
    whose name matches ([pathlib] does not hide dot files), for a [d] that
    can be listed. *)
Definition Path_glob (windows : bool) (fs : FS) (d : Path) (pattern : string) : list Path :=
  map fst (filter (fun e => is_child d (fst e) && fnmatch windows pattern (name (fst e))) fs).

(** [q] is [p] or lies below it. *)
Fixpoint names_prefix (a b : list string) : bool :=
  match a, b with
  | [], _ => true
  | x :: a', y :: b' => String.eqb x y && names_prefix a' b'
  | _ :: _, [] => false
  end.

Definition beneath (p q : Path) : bool :=
  String.eqb (anchor p) (anchor q) && names_prefix (names p) (names q).

(** *** The interpreter's surroundings and the mutable state *)

(** What a child process does: it cannot be started, or it runs to its end,
    leaving an exit code, its standard output, and the file system and the
    importable modules as it changed them.  The output is the text that
    [run(..., text=True)] hands back; a child whose output cannot be decoded
    is not among the outcomes. *)
Inductive outcome : Type :=
| CannotStart
| Exited (returncode : Z) (stdout : string) (fs' : FS) (importable' : list string).

Record Env : Type := mkEnv {
  platform : string;                 (* sys.platform *)
  sys_executable : string;           (* sys.executable *)
  sys_argv0 : string;                (* sys.argv[0]; sys.argv is never empty *)
  resolve : Path -> Path;            (* Path.resolve(), where it returns *)
  child : list string -> FS -> list string -> outcome;
  exc_text : exn -> string           (* str(e) *)
}.

Definition windows (env : Env) : bool := startswith (platform env) "win".

Inductive level : Type := Display | Warning | Error.

Record State : Type := mkState {
  fs : FS;
  importable : list string;          (* the names importlib can resolve, as the
                                        children left them *)
  log : list (level * string);       (* unreal.log*, oldest first *)
  spawned : list (list string)       (* commands handed to subprocess, oldest first *)
}.

(** *** The monad: state and exceptions *)

Definition M (A : Type) : Type := State -> result A * State.

Definition ret {A : Type} (a : A) : M A := fun s => (Ok a, s).

Definition bind {A B : Type} (m : M A) (k : A -> M B) : M B :=
  fun s =>
    match m s with
    | (Ok a, s') => k a s'
    | (Raise e, s') => (Raise e, s')
    end.

Definition raise {A : Type} (e : exn) : M A := fun s => (Raise e, s).

Definition lift {A : Type} (r : result A) : M A := fun s => (r, s).

(** [try: m except <the classes h answers to>: h e]. *)
Definition try_except {A : Type} (m : M A) (h : exn -> option (M A)) : M A :=
  fun s =>
    match m s with
    | (Ok a, s') => (Ok a, s')
    | (Raise e, s') =>
        match h e with
        | Some k => k s'
        | None => (Raise e, s')
        end
    end.

Definition gets {A : Type} (f : State -> A) : M A := fun s => (Ok (f s), s).

Definition set_fs (f : FS) : M unit :=
  fun s => (Ok tt, mkState f (importable s) (log s) (spawned s)).

(** *** [unreal.log], [unreal.log_warning], [unreal.log_error] *)

Definition emit (l : level) (msg : string) : M unit :=
  fun s => (Ok tt, mkState (fs s) (importable s) (log s ++ [(l, msg)]) (spawned s)).

Definition unreal_log := emit Display.
Definition unreal_log_warning := emit Warning.
Definition unreal_log_error := emit Error.

(** *** [importlib.util.find_spec(name)], as a truth value

    The scripts only test the result for truth.  For a top-level name the
    lookup is taken to be total. *)

Definition find_spec (nm : string) : M bool :=
  gets (fun s => existsb (String.eqb nm) (importable s)).

(** *** [subprocess] *)

Definition request (cmd : list string) : M unit :=
  fun s => (Ok tt, mkState (fs s) (importable s) (log s) (spawned s ++ [cmd])).

(** Spawn [cmd] and wait for it: the returncode and the child's output. *)
Definition wait (env : Env) (cmd : list string) : M (Z * string) :=
  fun s =>
    match child env cmd (fs s) (importable s) with
    | CannotStart => (Raise (OSError (hd "" cmd)), s)
    | Exited rc out f' i' => (Ok (rc, out), mkState f' i' (log s) (spawned s))
    end.

(** [subprocess.check_call(cmd)]. *)
Definition check_call (env : Env) (cmd : list string) : M Z :=
  bind (request cmd) (fun _ =>
  bind (wait env cmd) (fun r =>
  if (fst r =? 0)%Z then ret 0%Z else raise (CalledProcessError (fst r) cmd))).

(** [subprocess.run(cmd, capture_output=True, text=True, check=True).stdout]. *)
Definition run_stdout (env : Env) (cmd : list string) : M string :=
  bind (request cmd) (fun _ =>
  bind (wait env cmd) (fun r =>
  if (fst r =? 0)%Z then ret (snd r) else raise (CalledProcessError (fst r) cmd))).

(** [subprocess.Popen(cmd, cwd=cwd)]: the child is started and not waited
    for, so nothing of what it does later is seen here. *)
Definition Popen (env : Env) (cmd : list string) (cwd : option string) : M unit :=
  bind (request cmd) (fun _ =>
  fun s =>
    match child env cmd (fs s) (importable s) with
    | CannotStart => (Raise (OSError (hd "" cmd)), s)
    | Exited _ _ _ _ => (Ok tt, s)
    end).

(** *** Removing entries *)

(** [p.unlink()]. *)
Definition unlink (windows : bool) (p : Path) : M unit :=
  fun s =>
    match stat (fs s) p with
    | None => (Raise (OSError (str windows p)), s)
    | Some n =>
        match nkind n with
        | Directory => (Raise (OSError (str windows p)), s)
        | RegularFile =>
            if locked n then (Raise (OSError (str windows p)), s)
            else set_fs (filter (fun e => negb (Path_eqb (fst e) p)) (fs s)) s
        end
    end.

(** What [shutil.rmtree(p)] has removed at least when it gives up at the
    first locked entry below [p]: the files listed before it.  (The
    directories it has emptied by then are kept here.) *)
Fixpoint rmtree_until_locked (p : Path) (f : FS) : FS :=
  match f with
  | [] => []
  | (q, n) :: r =>
      if beneath p q then
        if locked n then (q, n) :: r
        else match nkind n with
             | RegularFile => rmtree_until_locked p r
             | Directory => (q, n) :: rmtree_until_locked p r
             end
      else (q, n) :: rmtree_until_locked p r
  end.

(** [shutil.rmtree(p)]. *)
Definition rmtree (windows : bool) (p : Path) : M unit :=
  fun s =>
    if negb (is_dir (fs s) p) then (Raise (OSError (str windows p)), s)
    else if existsb (fun e => beneath p (fst e) && locked (snd e)) (fs s)
    then bind (set_fs (rmtree_until_locked p (fs s)))
              (fun _ => raise (OSError (str windows p))) s
    else set_fs (filter (fun e => negb (beneath p (fst e))) (fs s)) s.

End Py.

Module PyNotations.
Notation "x <- m ;; k" := (Py.bind m (fun x => k))
  (at level 61, m at next level, right associativity).
Notation "m ;;; k" := (Py.bind m (fun _ => k))
  (at level 61, right associativity).
Notation "p // n" := (Py.div p n) (at level 40, left associativity).
End PyNotations.

(* ================================================================= *)
(** ** What the two scripts share

    Lines 15-75 of both scripts are the same text, and so are the two
    helpers that open a file browser and a terminal. *)

Module Common.
Import Py PyNotations.

Section WithEnv.
Variable env : Env.

Let win := windows env.

(** The candidate list, by platform. *)
Definition candidates (thirdparty : Path) : list Path :=
  if startswith (platform env) "win" then
    [ thirdparty // "Python3" // "Win64" // "python.exe";
      thirdparty // "Python3" // "Win64" // "python3.exe" ]
  else if String.eqb (platform env) "darwin" then
    [ thirdparty // "Python3" // "Mac" // "bin" // "python3" ]
  else
    [ thirdparty // "Python3" // "Linux" // "bin" // "python3" ].

(** [for c in candidates: if c.exists(): return c] *)
Fixpoint first_existing (f : FS) (cs : list Path) : option Path :=
  match cs with
  | [] => None
  | c :: r => if exists_ f c then Some c else first_existing f r
  end.

(** [for h in hits: p = Path(h); if p.is_file() and os.access(p, os.X_OK): return p] *)
Fixpoint first_executable (f : FS) (hits : list Path) : option Path :=
  match hits with
  | [] => None
  | p :: r => if is_file f p && os_access_X f p then Some p else first_executable f r
  end.

(** The body of the [try] block. *)
Definition guess_try (editor_exe : Path) : M (option Path) :=
  engine_dir <- lift (parents editor_exe 2) ;;
  let thirdparty := engine_dir // "Binaries" // "ThirdParty" in
  f <- gets fs ;;
  match first_existing f (candidates thirdparty) with
  | Some c => ret (Some c)
  | None =>
      let hits := glob_glob win f (thirdparty // "Python*" // "**" // "python*") in
      match first_executable f hits with
      | Some p => ret (Some p)
      | None => ret None
      end
  end.

(** [try: ... except Exception: pass], then [return None]. *)
Definition _guess_embedded_python_exe_from_editor (editor_exe : Path) : M (option Path) :=
  try_except (guess_try editor_exe) (fun _ => Some (ret None)).

Definition get_unreal_editor_exe : Path :=
  let exe := PurePath win (sys_executable env) in
  if startswith (lower (name exe)) "unrealeditor" then exe
  else resolve env (PurePath win (sys_argv0 env)).

Definition get_embedded_python_exe : M (option Path) :=
  let editor_exe := get_unreal_editor_exe in
  py <- _guess_embedded_python_exe_from_editor editor_exe ;;
  f <- gets fs ;;
  match py with
  | Some p =>
      if exists_ f p then ret (Some p)
      else unreal_log_warning "Could not resolve embedded Python automatically." ;;;
           ret None
  | None =>
      unreal_log_warning "Could not resolve embedded Python automatically." ;;;
      ret None
  end.

(** The helpers return nothing ([None]), here [tt]. *)
Definition open_python_folder_in_explorer : M unit :=
  py <- get_embedded_python_exe ;;
  match py with
  | None => unreal_log_error "No embedded Python found."
  | Some py =>
      let folder := parent py in
      unreal_log ("Python folder: " ++ str win folder) ;;;
      unreal_log ("Opening: " ++ str win folder) ;;;
      if startswith (platform env) "win" then Popen env ["explorer"; str win folder] None
      else if String.eqb (platform env) "darwin" then Popen env ["open"; str win folder] None
      else Popen env ["xdg-open"; str win folder] None
  end.

Definition open_cmd_at_python : M unit :=
  py <- get_embedded_python_exe ;;
  match py with
  | None => unreal_log_error "No embedded Python found."
  | Some py =>
      let folder := parent py in
      unreal_log ("Python folder: " ++ str win folder) ;;;
      unreal_log ("Opening CMD at: " ++ str win folder) ;;;
      if startswith (platform env) "win" then Popen env ["cmd.exe"] (Some (str win folder))
      else unreal_log_warning "CMD helper is Windows-only."
  end.

End WithEnv.
End Common.

(* ================================================================= *)
(** ** UE_installPyside6.py *)

Module Install.
Import Py PyNotations Common.

Section WithEnv.
Variable env : Env.

Let win := windows env.

(** [package] defaults to ["PySide2"], [extra_args] to [None]. *)
Definition pip_install_into_engine_sitepackages
    (package : string) (extra_args : option (list string)) : M bool :=
  py <- get_embedded_python_exe env ;;
  match py with
  | None => unreal_log_error "No embedded Python found." ;;; ret false
  | Some py =>
      let cmd := [str win py; "-m"; "pip"; "install"; "--no-warn-script-location"; "PySide6"] in
      let cmd := if truthy_list extra_args
                 then (cmd ++ match extra_args with Some l => l | None => [] end)%list
                 else cmd in
      unreal_log ("Running: " ++ join " " cmd) ;;;
      try_except
        (check_call env cmd ;;;
         unreal_log "Installed into Engine Python site-packages." ;;;
         ret true)
        (fun e => match e with
                  | CalledProcessError _ _ =>
                      Some (unreal_log_error ("pip failed: " ++ exc_text env e) ;;; ret false)
                  | _ => None
                  end)
  end.

Definition ensure_pyside2 : M bool :=
  found <- find_spec "PySide6" ;;
  if found then
    unreal_log "✅ PySide6 already available." ;;; ret true
  else
    unreal_log_warning "PySide6 not found. Attempting installation..." ;;;
    pip_install_into_engine_sitepackages "PySide6" None.

(** The script ends with a call of [ensure_pyside2()]. *)
Definition script : M bool := ensure_pyside2.

End WithEnv.
End Install.

(* ================================================================= *)
(** ** UE_uninstallPyside6.py *)

Module Uninstall.
Import Py PyNotations Common.

Section WithEnv.
Variable env : Env.

Let win := windows env.

(** [package] defaults to ["PySide6"], [extra_args] to [None]. *)
Definition pip_uninstall_from_engine_sitepackages
    (package : string) (extra_args : option (list string)) : M bool :=
  py <- get_embedded_python_exe env ;;
  match py with
  | None => unreal_log_error "No embedded Python found." ;;; ret false
  | Some py =>
      let cmd := [str win py; "-m"; "pip"; "uninstall"; "--yes"; package] in
      let cmd := if truthy_list extra_args
                 then (cmd ++ match extra_args with Some l => l | None => [] end)%list
                 else cmd in
      unreal_log ("Running: " ++ join " " cmd) ;;;
      try_except
        (check_call env cmd ;;;
         unreal_log ("Successfully uninstalled " ++ package
                     ++ " from Engine Python site-packages.") ;;;
         ret true)
        (fun e => match e with
                  | CalledProcessError _ _ =>
                      Some (unreal_log_error ("pip uninstall failed: " ++ exc_text env e) ;;;
                            ret false)
                  | _ => None
                  end)
  end.

Definition check_pyside6_installed : M bool :=
  found <- find_spec "PySide6" ;;
  if found then ret true else ret false.

Definition get_pyside6_installation_info : M (option string) :=
  py <- get_embedded_python_exe env ;;
  match py with
  | None => unreal_log_error "No embedded Python found." ;;; ret None
  | Some py =>
      let cmd := [str win py; "-m"; "pip"; "show"; "PySide6"] in
      try_except
        (out <- run_stdout env cmd ;; ret (Some out))
        (fun e => match e with
                  | CalledProcessError _ _ => Some (ret None)
                  | _ => None
                  end)
  end.

Definition uninstall_pyside6 : M bool :=
  installed <- check_pyside6_installed ;;
  if negb installed then
    unreal_log "❌ PySide6 is not installed in the engine's Python environment." ;;;
    ret false
  else
    info <- get_pyside6_installation_info ;;
    (if truthy_str info then
       unreal_log "📋 Current PySide6 installation info:" ;;;
       unreal_log (match info with Some s => s | None => "" end)
     else ret tt) ;;;
    unreal_log_warning "🗑️ Attempting to uninstall PySide6..." ;;;
    success <- pip_uninstall_from_engine_sitepackages "PySide6" None ;;
    if success then
      still <- check_pyside6_installed ;;
      if negb still then
        unreal_log "✅ PySide6 successfully uninstalled and verified." ;;;
        ret true
      else
        unreal_log_warning
          "⚠️ Uninstall command completed but PySide6 still appears to be available." ;;;
        ret false
    else
      unreal_log_error "❌ Failed to uninstall PySide6." ;;;
      ret false.

Definition patterns : list string := ["PySide6*"; "shiboken6*"; "*pyside6*"].

(** [for pattern in patterns: pyside_paths.extend(site_packages.glob(pattern))] *)
Definition pyside_paths (f : FS) (site_packages : Path) : list Path :=
  flat_map (Path_glob win f site_packages) patterns.

(** One turn of the removal loop, with its own [try ... except Exception]. *)
Definition remove_one (path : Path) : M unit :=
  unreal_log ("  - " ++ str win path) ;;;
  try_except
    (d <- gets (fun s => is_dir (fs s) path) ;;
     if d then
       rmtree win path ;;;
       unreal_log ("  ✅ Removed directory: " ++ str win path)
     else
       unlink win path ;;;
       unreal_log ("  ✅ Removed file: " ++ str win path))
    (fun e => Some (unreal_log_warning
                      ("  ⚠️ Could not remove " ++ str win path ++ ": " ++ exc_text env e))).

(** [for path in pyside_paths: ...] *)
Fixpoint remove_all (paths : list Path) : M unit :=
  match paths with
  | [] => ret tt
  | path :: r => remove_one path ;;; remove_all r
  end.

Definition cleanup_pyside6_cache : M bool :=
  py <- get_embedded_python_exe env ;;
  match py with
  | None => unreal_log_error "No embedded Python found." ;;; ret false
  | Some py =>
      let cmd := [str win py; "-c"; "import site; print(site.getsitepackages()[0])"] in
      try_except
        (out <- run_stdout env cmd ;;
         let site_packages := PurePath win (strip out) in
         f <- gets fs ;;
         let paths := pyside_paths f site_packages in
         match paths with
         | _ :: _ =>
             unreal_log "🧹 Found potential PySide6 remnants:" ;;;
             remove_all paths ;;;
             ret true
         | [] =>
             unreal_log "✅ No PySide6 remnants found." ;;;
             ret true
         end)
        (fun e => match e with
                  | CalledProcessError _ _ =>
                      Some (unreal_log_error
                              ("Failed to get site-packages directory: " ++ exc_text env e) ;;;
                            ret false)
                  | _ => None
                  end)
  end.

Definition list_installed_packages : M unit :=
  py <- get_embedded_python_exe env ;;
  match py with
  | None => unreal_log_error "No embedded Python found."
  | Some py =>
      let cmd := [str win py; "-m"; "pip"; "list"] in
      unreal_log "📦 Packages installed in engine Python:" ;;;
      try_except
        (out <- run_stdout env cmd ;; unreal_log out)
        (fun e => match e with
                  | CalledProcessError _ _ =>
                      Some (unreal_log_error ("Failed to list packages: " ++ exc_text env e))
                  | _ => None
                  end)
  end.

(** The block under [if __name__ == "__main__":]. *)
Definition main_block : M unit :=
  unreal_log "🚀 PySide6 Uninstaller for Unreal Engine" ;;;
  unreal_log "==================================================" ;;;
  installed <- check_pyside6_installed ;;
  (if installed then
     unreal_log "📋 PySide6 is currently installed." ;;;
     ok <- uninstall_pyside6 ;;
     if ok then
       cleanup_pyside6_cache ;;;
       unreal_log "🎉 PySide6 uninstallation completed successfully!"
     else
       unreal_log "❌ PySide6 uninstallation failed."
   else
     unreal_log "ℹ️ PySide6 is not currently installed in the engine's Python environment.") ;;;
  unreal_log "==================================================".

(** The script: the [__main__] block when the file is run as the main
    module, and then, in any case, a call of [uninstall_pyside6()]. *)
Definition script (is_main : bool) : M bool :=
  (if is_main then main_block else ret tt) ;;; uninstall_pyside6.

End WithEnv.
End Uninstall.

(* ================================================================= *)
(** ** Vocabulary of the statements *)

Module Spec.
Import Py PyNotations Common.


Definition none_such {A : Type} (P : A -> bool) (l : list A) : Prop :=
  forall y, In y l -> P y = false.

(** [s] begins with [p], letter case set aside. *)
Fixpoint begins_ignoring_case (p s : string) : bool :=
  match p, s with
  | EmptyString, _ => true
  | String a p', String b s' =>
      Ascii.eqb (lower_ascii a) (lower_ascii b) && begins_ignoring_case p' s'
  | String _ _, EmptyString => false
  end.

(** The package is resolvable by [importlib]. *)
Definition resolvable (nm : string) (s : State) : bool :=
  existsb (String.eqb nm) (importable s).

(** The operation left the file system alone and asked for no process. *)
Definition untouched (s s' : State) : Prop :=
  fs s' = fs s /\ spawned s' = spawned s.

(** The platform's directory below [ThirdParty/Python3]. *)
Definition platform_dir (env : Env) : string :=
  if startswith (platform env) "win" then "Win64"
  else if String.eqb (platform env) "darwin" then "Mac"
  else "Linux".

(** The entry lies outside every path of [hits]. *)
Definition outside (hits : list Path) (e : Path * node) : bool :=
  negb (existsb (fun h => beneath h (fst e)) hits).

(** Nothing at or below [h] is locked. *)
Definition removable (f : FS) (h : Path) : Prop :=
  forall e, In e f -> beneath h (fst e) = true -> locked (snd e) = false.

(** The commands the operations build. *)
Definition pip_install_cmd (env : Env) (py : Path) (extra : list string) : list string :=
  ([str (windows env) py; "-m"; "pip"; "install"; "--no-warn-script-location"; "PySide6"]
     ++ extra)%list.

Definition pip_uninstall_cmd (env : Env) (py : Path) (package : string)
    (extra : list string) : list string :=
  ([str (windows env) py; "-m"; "pip"; "uninstall"; "--yes"; package] ++ extra)%list.

Definition site_query_cmd (env : Env) (py : Path) : list string :=
  [str (windows env) py; "-c"; "import site; print(site.getsitepackages()[0])"].

Definition extra_of (o : option (list string)) : list string :=
  match o with Some l => l | None => [] end.

(** What [uninstall_pyside6] does between its first probe and the call of
    pip: it shows the installation info and announces the uninstall. *)
Definition uninstall_prelude (env : Env) : M unit :=
  info <- Uninstall.get_pyside6_installation_info env ;;
  (if truthy_str info then
     unreal_log "📋 Current PySide6 installation info:" ;;;
     unreal_log (match info with Some s => s | None => "" end)
   else ret tt) ;;;
  unreal_log_warning "🗑️ Attempting to uninstall PySide6...".

(** The locator as a function of the file system: what it finds. *)
Definition located (env : Env) (editor_exe : Path) (f : FS) : option Path :=
  match parents editor_exe 2 with
  | Raise _ => None
  | Ok engine_dir =>
      let thirdparty := engine_dir // "Binaries" // "ThirdParty" in
      match first_existing f (candidates env thirdparty) with
      | Some c => Some c
      | None =>
          first_executable f
            (glob_glob (windows env) f (thirdparty // "Python*" // "**" // "python*"))
      end
  end.

(** [s] with more log entries; [s] with one more spawn request. *)
Definition logged (s : State) (entries : list (level * string)) : State :=
  mkState (fs s) (importable s) (log s ++ entries) (spawned s).

Definition asked (s : State) (cmd : list string) : State :=
  mkState (fs s) (importable s) (log s) (spawned s ++ [cmd]).

(** [s] after a child has run to its end. *)
Definition after_child (s : State) (f : FS) (i : list string) : State :=
  mkState f i (log s) (spawned s).

(** From [s] to [s'] nothing happened but the removal of entries at or below
    [p]: what a filter keeps outside [p] is kept in place. *)
Definition removes_below (p : Path) (s s' : State) : Prop :=
  importable s' = importable s /\ spawned s' = spawned s
  /\ incl (fs s') (fs s)
  /\ forall g : Path * node -> bool,
       (forall e, beneath p (fst e) = true -> g e = false) ->
       filter g (fs s') = filter g (fs s).

(** The same for a list of paths. *)
Definition removes_within (hits : list Path) (s s' : State) : Prop :=
  importable s' = importable s /\ spawned s' = spawned s
  /\ incl (fs s') (fs s)
  /\ forall g : Path * node -> bool,
       (forall e h, In h hits -> beneath h (fst e) = true -> g e = false) ->
       filter g (fs s') = filter g (fs s).

(** The warning of the cleanup for a path it could not remove. *)
Definition could_not_remove (env : Env) (p : Path) (e : exn) : string :=
  "  ⚠️ Could not remove " ++ str (windows env) p ++ ": " ++ exc_text env e.

(** The state after the warning of [get_embedded_python_exe]. *)
Definition warned (s : State) : State :=
  logged s [(Warning, "Could not resolve embedded Python automatically.")].

(** The name holds none of the characters [glob] gives a meaning to. *)
Definition wildcard_free (nm : string) : bool :=
  forallb (fun c => negb (Ascii.eqb c "*") && negb (Ascii.eqb c "?")
                    && negb (Ascii.eqb c "["))
          (list_ascii_of_string nm).

(** [p] lies below [d] and is not [d] itself. *)
Definition strictly_below (d p : Path) : bool :=
  beneath d p && (length (names d) <? length (names p))%nat.

(** The program that shows a folder, by platform. *)
Definition opener (env : Env) : string :=
  if startswith (platform env) "win" then "explorer"
  else if String.eqb (platform env) "darwin" then "open"
  else "xdg-open".

Definition pip_show_cmd (env : Env) (py : Path) : list string :=
  [str (windows env) py; "-m"; "pip"; "show"; "PySide6"].

Definition pip_list_cmd (env : Env) (py : Path) : list string :=
  [str (windows env) py; "-m"; "pip"; "list"].

(** A command line of the form [<interpreter> -m pip <verb> ...]. *)
Definition is_pip (verb : string) (cmd : list string) : bool :=
  String.eqb (nth 1 cmd "") "-m" && String.eqb (nth 2 cmd "") "pip"
  && String.eqb (nth 3 cmd "") verb.

End Spec.

(* ================================================================= *)
(** ** Sample worlds, for the witnesses and the counterexamples *)

Module Sample.
Import Py PyNotations.

Definition P : string -> Path := PurePath false.

Definition plain_file : node := mkNode RegularFile false false.
Definition program : node := mkNode RegularFile true false.
Definition folder : node := mkNode Directory true false.
Definition locked_file : node := mkNode RegularFile false true.

Definition python3 : string := "/ue/Engine/Binaries/ThirdParty/Python3/Linux/bin/python3".
Definition site_packages : string :=
  "/ue/Engine/Binaries/ThirdParty/Python3/Linux/lib/python3.11/site-packages".

(** An engine tree with its interpreter and a populated site-packages. *)
Definition engine_fs : FS :=
  [ (P "/ue/Engine/Binaries/ThirdParty", folder);
    (P "/ue/Engine/Binaries/ThirdParty/Python3", folder);
    (P "/ue/Engine/Binaries/ThirdParty/Python3/Linux", folder);
    (P "/ue/Engine/Binaries/ThirdParty/Python3/Linux/bin", folder);
    (P python3, program);
    (P site_packages, folder);
    (P (site_packages ++ "/numpy"), folder);
    (P (site_packages ++ "/numpy/core.py"), plain_file);
    (P (site_packages ++ "/PySide6"), folder);
    (P (site_packages ++ "/PySide6/QtCore.abi3.so"), locked_file);
    (P (site_packages ++ "/shiboken6"), folder);
    (P (site_packages ++ "/shiboken6/Shiboken.abi3.so"), plain_file);
    (P (site_packages ++ "/my_pyside6_tools.pth"), plain_file);
    (P (site_packages ++ "/six.py"), plain_file) ].

(** The interpreter is in its place but lacks the executable bit. *)
Definition unusable_fs : FS :=
  [ (P "/ue/Engine/Binaries/ThirdParty/Python3/Linux/bin", folder);
    (P python3, plain_file) ].

(** A tree in which every remnant is locked. *)
Definition stubborn_fs : FS :=
  [ (P "/ue/Engine/Binaries/ThirdParty/Python3/Linux/bin", folder);
    (P python3, program);
    (P site_packages, folder);
    (P (site_packages ++ "/PySide6"), folder);
    (P (site_packages ++ "/PySide6/QtCore.abi3.so"), locked_file);
    (P (site_packages ++ "/shiboken6.pth"), locked_file) ].

(** A tree without the fixed candidate but with interpreters elsewhere
    below [ThirdParty/Python3]; the one right below [Python3] is listed
    last. *)
Definition fallback_fs : FS :=
  [ (P "/ue/Engine/Binaries/ThirdParty", folder);
    (P "/ue/Engine/Binaries/ThirdParty/Python3", folder);
    (P "/ue/Engine/Binaries/ThirdParty/Python3/Linux", folder);
    (P "/ue/Engine/Binaries/ThirdParty/Python3/Linux/python3-config", plain_file);
    (P "/ue/Engine/Binaries/ThirdParty/Python3/Linux/.venv", folder);
    (P "/ue/Engine/Binaries/ThirdParty/Python3/Linux/.venv/python3", program);
    (P "/ue/Engine/Binaries/ThirdParty/Python3/Linux/opt", folder);
    (P "/ue/Engine/Binaries/ThirdParty/Python3/Linux/opt/python3.11", program);
    (P "/ue/Engine/Binaries/ThirdParty/Python3/python", program) ].


(** An engine installed in a directory named [ue[5]], with an interpreter
    below its [ThirdParty] but not at the fixed place. *)
Definition bracket_fs : FS :=
  [ (P "/ue[5]", folder);
    (P "/ue[5]/Engine", folder);
    (P "/ue[5]/Engine/Binaries", folder);
    (P "/ue[5]/Engine/Binaries/Linux", folder);
    (P "/ue[5]/Engine/Binaries/Linux/UnrealEditor", program);
    (P "/ue[5]/Engine/Binaries/ThirdParty", folder);
    (P "/ue[5]/Engine/Binaries/ThirdParty/Python3", folder);
    (P "/ue[5]/Engine/Binaries/ThirdParty/Python3/Linux", folder);
    (P "/ue[5]/Engine/Binaries/ThirdParty/Python3/Linux/opt", folder);
    (P "/ue[5]/Engine/Binaries/ThirdParty/Python3/Linux/opt/python3.11", program) ].

(** The same machine with a second engine next to it, in [ue5]. *)
Definition two_engines_fs : FS :=
  (bracket_fs ++
   [ (P "/ue5", folder);
     (P "/ue5/Engine", folder);
     (P "/ue5/Engine/Binaries", folder);
     (P "/ue5/Engine/Binaries/ThirdParty", folder);
     (P "/ue5/Engine/Binaries/ThirdParty/Python3", folder);
     (P "/ue5/Engine/Binaries/ThirdParty/Python3/Linux", folder);
     (P "/ue5/Engine/Binaries/ThirdParty/Python3/Linux/bin", folder);
     (P "/ue5/Engine/Binaries/ThirdParty/Python3/Linux/bin/python3", program) ])%list.

Definition newline : string := String (ascii_of_nat 10) EmptyString.

Definition remove_name (nm : string) (l : list string) : list string :=
  filter (fun x => negb (String.eqb x nm)) l.

(** A pip that does its work: [install] makes the package importable,
    [uninstall] makes it unresolvable; the site query prints the
    directory.  The file system is left as it is. *)
Definition working_child (cmd : list string) (f : FS) (i : list string) : outcome :=
  if String.eqb (nth 1 cmd "") "-c" then Exited 0 (site_packages ++ newline) f i
  else if String.eqb (nth 3 cmd "") "install" then Exited 0 "" f ("PySide6" :: i)
  else if String.eqb (nth 3 cmd "") "uninstall" then Exited 0 "" f (remove_name (nth 5 cmd "") i)
  else if String.eqb (nth 3 cmd "") "show" then Exited 0 "Name: PySide6" f i
  else Exited 0 "" f i.

(** A pip that reports success and changes nothing. *)
Definition idle_child (cmd : list string) (f : FS) (i : list string) : outcome :=
  Exited 0 "" f i.

(** Every child exits with status 1. *)
Definition failing_child (cmd : list string) (f : FS) (i : list string) : outcome :=
  Exited 1 "" f i.

(** A child starts only when its program is executable in the file system. *)
Definition needs_x_bit (cmd : list string) (f : FS) (i : list string) : outcome :=
  if os_access_X f (P (hd "" cmd)) then Exited 0 "" f i else CannotStart.

(** No child can be started. *)
Definition no_child (cmd : list string) (f : FS) (i : list string) : outcome :=
  CannotStart.

Definition text (e : exn) : string :=
  match e with
  | IndexError => "IndexError"
  | OSError f => "OSError: " ++ f
  | CalledProcessError _ _ => "CalledProcessError"
  end.

Definition linux (c : list string -> FS -> list string -> outcome) : Env :=
  mkEnv "linux" "/ue/Engine/Binaries/Linux/UnrealEditor" "" (fun p => p) c text.

Definition start (f : FS) (i : list string) : State := mkState f i [] [].

(** A site-packages with one file whose name matches two of the patterns. *)
Definition twice_fs : FS :=
  [ (P "/ue/Engine/Binaries/ThirdParty/Python3/Linux/bin", folder);
    (P python3, program);
    (P site_packages, folder);
    (P (site_packages ++ "/shiboken6_pyside6.pth"), plain_file);
    (P (site_packages ++ "/six.py"), plain_file) ].

Definition windows_python : string :=
  "C:\UE\Engine\Binaries\ThirdParty\Python3\Win64\python.exe".

Definition windows_site : string :=
  "C:\UE\Engine\Binaries\ThirdParty\Python3\Win64\Lib\site-packages".

(** A Windows engine tree. *)
Definition windows_fs : FS :=
  [ (PurePath true windows_python, program);
    (PurePath true windows_site, folder);
    (PurePath true (windows_site ++ "\PySide6"), folder);
    (PurePath true (windows_site ++ "\PySide6\QtCore.pyd"), plain_file);
    (PurePath true (windows_site ++ "\numpy"), folder) ].

(** A child that prints the Windows site-packages directory. *)
Definition windows_child (cmd : list string) (f : FS) (i : list string) : outcome :=
  if String.eqb (nth 1 cmd "") "-c" then Exited 0 (windows_site ++ newline) f i
  else Exited 0 "" f i.

Definition win32 (c : list string -> FS -> list string -> outcome) : Env :=
  mkEnv "win32" "C:\UE\Engine\Binaries\Win64\UnrealEditor.exe" "" (fun p => p) c text.

End Sample.

(* ================================================================= *)
(** ** Properties *)

Import Py PyNotations Common Spec.

(** *** Paths and the file system *)

Lemma names_eqb_eq (a b : list string) : names_eqb a b = true <-> a = b.
Proof.
  revert b; induction a as [|x a IH]; intros [|y b]; simpl; split;
    try congruence; try reflexivity.
  - intros H. apply andb_true_iff in H as [Hx Hr].
    apply String.eqb_eq in Hx. apply IH in Hr. congruence.
  - intros H. injection H as -> ->. rewrite String.eqb_refl. simpl. now apply IH.
Qed.

Lemma Path_eqb_eq (p q : Path) : Path_eqb p q = true <-> p = q.
Proof.
  unfold Path_eqb. destruct p as [a l], q as [b m]; simpl.
  rewrite andb_true_iff, String.eqb_eq, names_eqb_eq.
  split; [intros [-> ->]; reflexivity | intros H; injection H; auto].
Qed.

Lemma Path_eqb_refl (p : Path) : Path_eqb p p = true.
Proof. now apply Path_eqb_eq. Qed.

Lemma names_prefix_refl (l : list string) : names_prefix l l = true.
Proof. induction l as [|x l IH]; simpl; [reflexivity|]. now rewrite String.eqb_refl. Qed.

Lemma beneath_refl (p : Path) : beneath p p = true.
Proof. unfold beneath. now rewrite String.eqb_refl, names_prefix_refl. Qed.

Lemma names_prefix_app (a b : list string) : names_prefix a (a ++ b) = true.
Proof.
  induction a as [|x a IH]; simpl; [reflexivity|]. now rewrite String.eqb_refl.
Qed.

Lemma names_prefix_trans (a b c : list string) :
  names_prefix a b = true -> names_prefix b c = true -> names_prefix a c = true.
Proof.
  revert b c. induction a as [|x a IH]; intros [|y b] [|z c]; simpl;
    try reflexivity; try discriminate.
  intros H1 H2. apply andb_true_iff in H1 as [E1 H1]. apply andb_true_iff in H2 as [E2 H2].
  apply String.eqb_eq in E1. apply String.eqb_eq in E2. subst.
  rewrite String.eqb_refl. simpl. eapply IH; eauto.
Qed.

Lemma beneath_trans (p q r : Path) :
  beneath p q = true -> beneath q r = true -> beneath p r = true.
Proof.
  unfold beneath. intros H1 H2.
  apply andb_true_iff in H1 as [E1 H1]. apply andb_true_iff in H2 as [E2 H2].
  apply String.eqb_eq in E1. apply String.eqb_eq in E2.
  rewrite E1, E2, String.eqb_refl. simpl. eapply names_prefix_trans; eauto.
Qed.

Lemma names_prefix_map (g : string -> string) (a b : list string) :
  names_prefix a b = true -> names_prefix (map g a) (map g b) = true.
Proof.
  revert b. induction a as [|x a IH]; intros [|y b]; simpl;
    try reflexivity; try discriminate.
  intros H. apply andb_true_iff in H as [E H]. apply String.eqb_eq in E. subst.
  rewrite String.eqb_refl. simpl. now apply IH.
Qed.

Lemma stat_In (f : FS) (p : Path) (n : node) : stat f p = Some n -> In (p, n) f.
Proof.
  induction f as [|[q m] f IH]; simpl; [discriminate|].
  destruct (Path_eqb q p) eqn:E.
  - apply Path_eqb_eq in E. intros H; injection H as ->. left. now subst.
  - intros H. right. auto.
Qed.

Lemma is_file_exists (f : FS) (p : Path) : is_file f p = true -> exists_ f p = true.
Proof. unfold is_file, exists_. destruct (stat f p); [reflexivity | discriminate]. Qed.

(** *** The two loops of the locator *)



Lemma first_existing_exists (f : FS) (cs : list Path) (c : Path) :
  first_existing f cs = Some c -> exists_ f c = true.
Proof.
  induction cs as [|x cs IH]; simpl; [discriminate|].
  destruct (exists_ f x) eqn:E; [intros H; injection H as <-; exact E | exact IH].
Qed.



Lemma first_executable_exists (f : FS) (hits : list Path) (h : Path) :
  first_executable f hits = Some h -> exists_ f h = true.
Proof.
  induction hits as [|x hits IH]; simpl; [discriminate|].
  destruct (is_file f x && os_access_X f x) eqn:E; [|exact IH].
  intros H; injection H as <-. apply andb_true_iff in E as [E _]. now apply is_file_exists.
Qed.

Lemma guess_located (env : Env) (editor_exe : Path) (s : State) :
  _guess_embedded_python_exe_from_editor env editor_exe s
  = (Ok (located env editor_exe (fs s)), s).
Proof.
  unfold _guess_embedded_python_exe_from_editor, try_except, guess_try, located, bind, lift, gets.
  destruct (parents editor_exe 2) as [engine|e]; [|reflexivity].
  destruct (first_existing _ _); [reflexivity|].
  destruct (first_executable _ _); reflexivity.
Qed.

Lemma located_exists (env : Env) (editor_exe : Path) (f : FS) (p : Path) :
  located env editor_exe f = Some p -> exists_ f p = true.
Proof.
  unfold located. destruct (parents editor_exe 2) as [engine|e]; [|discriminate].
  destruct (first_existing _ _) eqn:E.
  - intros H; injection H as <-. eapply first_existing_exists; eauto.
  - apply first_executable_exists.
Qed.

Lemma get_embedded_located (env : Env) (s : State) :
  get_embedded_python_exe env s
  = match located env (get_unreal_editor_exe env) (fs s) with
    | Some p => (Ok (Some p), s)
    | None => (Ok None, warned s)
    end.
Proof.
  unfold get_embedded_python_exe, bind. rewrite guess_located. unfold gets.
  destruct (located _ _ _) eqn:E; [|reflexivity].
  now rewrite (located_exists _ _ _ _ E).
Qed.

(** *** Wildcards *)



(** A name without wildcard characters is no pattern. *)
Lemma wildcard_free_no_magic (nm : string) :
  wildcard_free nm = true -> has_magic nm = false.
Proof.
  unfold wildcard_free, has_magic.
  induction (list_ascii_of_string nm) as [|c l IH]; simpl; [reflexivity|].
  intros H. apply andb_true_iff in H as [H Hl]. rewrite (IH Hl).
  destruct (Ascii.eqb c "*"), (Ascii.eqb c "?"), (Ascii.eqb c "[");
    simpl in *; congruence.
Qed.

(** *** Listing directories *)

Lemma is_child_names (d p : Path) :
  is_child d p = true -> anchor p = anchor d /\ names p = (names d ++ [name p])%list.
Proof.
  unfold is_child, name. intros H.
  apply andb_true_iff in H as [H Hn]. apply andb_true_iff in H as [Ha Hp].
  apply String.eqb_eq in Ha. apply names_eqb_eq in Hp.
  split; [exact Ha|]. rewrite <- Hp. apply app_removelast_last.
  destruct (names p); [discriminate | discriminate].
Qed.

Lemma is_child_beneath (d p : Path) : is_child d p = true -> beneath d p = true.
Proof.
  intros H. apply is_child_names in H as [Ha Hn]. unfold beneath.
  now rewrite Ha, String.eqb_refl, Hn, names_prefix_app.
Qed.

Lemma listdir_In (dironly : bool) (f : FS) (d : Path) (e : Path * node) :
  In e (listdir dironly f d) -> In e f /\ is_child d (fst e) = true.
Proof.
  unfold listdir. intros H. apply filter_In in H as [H Hc].
  apply andb_true_iff in Hc as [Hc _]. now split.
Qed.

(** What the recursive listing yields is in the file system, below the
    directory it started from. *)
Lemma rlistdir_In (dironly : bool) (f : FS) (h : Path) :
  forall fuel d,
    In h (rlistdir fuel dironly f d) -> In h (map fst f) /\ beneath d h = true.
Proof.
  induction fuel as [|n IH]; intros d; simpl; [contradiction|].
  intros H. apply in_flat_map in H as (e & He & Hh).
  apply listdir_In in He as [He Hc].
  destruct (hidden (name (fst e))); [contradiction|].
  destruct Hh as [<-|Hh].
  - split; [now apply in_map | now apply is_child_beneath].
  - apply IH in Hh as [Hf Hb]. split; [exact Hf|].
    eapply beneath_trans; [apply is_child_beneath; exact Hc | exact Hb].
Qed.

Lemma flat_map_ext_In {A B : Type} (g k : A -> list B) (l : list A) :
  (forall a, In a l -> g a = k a) -> flat_map g l = flat_map k l.
Proof.
  induction l as [|a l IH]; simpl; intros H; [reflexivity|].
  rewrite (H a) by now left. f_equal. apply IH. intros b Hb. apply H. now right.
Qed.

(** The depth bound is enough: more fuel lists nothing more. *)
Lemma depth_bound (f : FS) (e : Path * node) :
  In e f -> (length (names (fst e)) <= depth f)%nat.
Proof.
  unfold depth. induction f as [|x f IH]; simpl; [contradiction|].
  intros [->|H]; [lia|]. specialize (IH H). lia.
Qed.

Lemma rlistdir_enough (dironly : bool) (f : FS) :
  forall n m d,
    (depth f <= length (names d) + n)%nat -> (n <= m)%nat ->
    rlistdir m dironly f d = rlistdir n dironly f d.
Proof.
  induction n as [|n IH]; intros m d Hd Hm.
  - destruct m as [|m]; [reflexivity|]. simpl.
    assert (E : listdir dironly f d = []).
    { destruct (listdir dironly f d) as [|e l] eqn:E; [reflexivity|].
      assert (He : In e (listdir dironly f d)) by (rewrite E; now left).
      apply listdir_In in He as [He Hc]. apply is_child_names in Hc as [_ Hc].
      apply depth_bound in He. rewrite Hc, length_app in He. simpl in He. lia. }
    now rewrite E.
  - destruct m as [|m]; [lia|]. simpl.
    apply flat_map_ext_In. intros e He.
    apply listdir_In in He as [_ Hc]. apply is_child_names in Hc as [_ Hc].
    destruct (hidden (name (fst e))); [reflexivity|]. f_equal.
    apply IH; [|lia]. rewrite Hc, length_app. simpl. lia.
Qed.

Lemma rlistdir_depth (dironly : bool) (f : FS) (m : nat) (d : Path) :
  (depth f <= m)%nat -> rlistdir m dironly f d = rlistdir (depth f) dironly f d.
Proof. intros H. apply rlistdir_enough; lia. Qed.

(** *** One component, then all of them *)

Lemma glob_in_dir_beneath (w : bool) (f : FS) (dironly : bool) (d : Path)
    (pat : string) (h : Path) :
  In h (glob_in_dir w f dironly d pat) -> beneath d h = true.
Proof.
  unfold glob_in_dir. destruct (String.eqb pat "**").
  - intros [<-|H]; [apply beneath_refl | now apply rlistdir_In in H].
  - destruct (has_magic pat).
    + intros H. apply in_map_iff in H as (e & <- & H).
      apply filter_In in H as [H _]. apply listdir_In in H as [_ H].
      now apply is_child_beneath.
    + destruct (exists_ f (d // pat)); [|contradiction].
      intros [<-|[]]. unfold beneath, div. cbn [anchor names].
      now rewrite String.eqb_refl, names_prefix_app.
Qed.


Lemma glob_walk_beneath (w : bool) (f : FS) (root h : Path) :
  forall pats dirs,
    (forall d, In d dirs -> beneath root d = true) ->
    In h (glob_walk w f dirs pats) -> beneath root h = true.
Proof.
  induction pats as [|pat rest IH]; intros dirs Hd; cbn [glob_walk]; [apply Hd|].
  destruct rest as [|pat' rest].
  - intros H. apply in_flat_map in H as (d & Hin & H).
    eapply beneath_trans; [apply (Hd _ Hin) | eapply glob_in_dir_beneath; exact H].
  - apply IH. intros d' H. apply in_flat_map in H as (d & Hin & H).
    eapply beneath_trans; [apply (Hd _ Hin) | eapply glob_in_dir_beneath; exact H].
Qed.




Lemma literal_prefix_literal (lits : list string) (x : string) (rest : list string) :
  Forall (fun l => has_magic l = false) lits -> has_magic x = true ->
  literal_prefix (lits ++ x :: rest) = (lits, x :: rest).
Proof.
  intros Hl Hx. induction Hl as [|l lits H _ IH]; cbn [app literal_prefix].
  - now rewrite Hx.
  - now rewrite H, IH.
Qed.


(** With no wildcard character in the path of [ThirdParty], every hit of the
    fallback search lies below [ThirdParty]. *)
Lemma fallback_hits_below_thirdparty (w : bool) (f : FS) (thirdparty h : Path) :
  Forall (fun l => wildcard_free l = true) (names thirdparty) ->
  In h (glob_glob w f (thirdparty // "Python*" // "**" // "python*")) ->
  beneath thirdparty h = true.
Proof.
  intros Hs. unfold glob_glob.
  change (names (thirdparty // "Python*" // "**" // "python*"))
    with (((names thirdparty ++ ["Python*"]) ++ ["**"]) ++ ["python*"])%list.
  rewrite <- !app_assoc. cbn [app].
  rewrite literal_prefix_literal; [| |reflexivity].
  - apply glob_walk_beneath. intros d [<-|[]].
    unfold beneath. cbn [anchor names].
    now rewrite String.eqb_refl, names_prefix_refl.
  - eapply Forall_impl; [|exact Hs]. intros a. apply wildcard_free_no_magic.
Qed.

(** The candidates lie in the platform's directory below
    [ThirdParty/Python3]. *)
Lemma candidates_below_platform_dir (env : Env) (thirdparty c : Path) :
  In c (candidates env thirdparty) ->
  beneath (thirdparty // "Python3" // platform_dir env) c = true.
Proof.
  unfold candidates, platform_dir.
  destruct (startswith (platform env) "win");
    [| destruct (String.eqb (platform env) "darwin")];
    simpl; intros H; repeat (destruct H as [<-|H]; [|try contradiction]);
    unfold beneath, div; simpl; rewrite String.eqb_refl; simpl;
    match goal with
    | |- names_prefix ?l _ = true => generalize l; intros base
    end;
    repeat rewrite <- app_assoc; apply names_prefix_app.
Qed.

(** *** The interpreter locator *)

(** The order of the hits: what lies right in a directory comes before what
    lies in the directories below it, wherever the listing has it; hidden
    directories are not entered. *)
Example fallback_hits_in_search_order :
  glob_glob false Sample.fallback_fs
    (Sample.P "/ue/Engine/Binaries/ThirdParty" // "Python*" // "**" // "python*")
  = [ Sample.P "/ue/Engine/Binaries/ThirdParty/Python3/python";
      Sample.P "/ue/Engine/Binaries/ThirdParty/Python3/Linux/python3-config";
      Sample.P "/ue/Engine/Binaries/ThirdParty/Python3/Linux/opt/python3.11" ].
Proof. vm_compute. reflexivity. Qed.

(** C1. The search of the fallback is not confined to the engine's
    [ThirdParty]: the path of the engine is pasted into the pattern as it
    stands, so a wildcard character in it is read as one.  The editor runs
    from [/ue[5]/Engine/Binaries/Linux/UnrealEditor].  On a machine where this
    engine has an executable regular file [python3.11] below its [ThirdParty],
    the locator finds nothing; with a second engine in [/ue5] next to it, the
    locator returns that engine's interpreter, which lies outside the
    [ThirdParty] of the engine the editor runs from. *)
Theorem locator_search_reads_engine_path_as_pattern :
  (is_file Sample.bracket_fs
     (Sample.P "/ue[5]/Engine/Binaries/ThirdParty/Python3/Linux/opt/python3.11")
   && os_access_X Sample.bracket_fs
        (Sample.P "/ue[5]/Engine/Binaries/ThirdParty/Python3/Linux/opt/python3.11")
   && beneath (Sample.P "/ue[5]/Engine/Binaries/ThirdParty")
        (Sample.P "/ue[5]/Engine/Binaries/ThirdParty/Python3/Linux/opt/python3.11")
   && startswith "python3.11" "python") = true
  /\ fst (_guess_embedded_python_exe_from_editor (Sample.linux Sample.no_child)
            (Sample.P "/ue[5]/Engine/Binaries/Linux/UnrealEditor")
            (Sample.start Sample.bracket_fs []))
     = Ok None
  /\ fst (_guess_embedded_python_exe_from_editor (Sample.linux Sample.no_child)
            (Sample.P "/ue[5]/Engine/Binaries/Linux/UnrealEditor")
            (Sample.start Sample.two_engines_fs []))
     = Ok (Some (Sample.P "/ue5/Engine/Binaries/ThirdParty/Python3/Linux/bin/python3"))
  /\ beneath (Sample.P "/ue[5]/Engine/Binaries/ThirdParty")
       (Sample.P "/ue5/Engine/Binaries/ThirdParty/Python3/Linux/bin/python3")
     = false.
Proof.
  split; [vm_compute; reflexivity|].
  split; [vm_compute; reflexivity|].
  split; vm_compute; reflexivity.
Qed.

(** *** Running the monad *)

Lemma bind_Ok {A B : Type} (m : M A) (k : A -> M B) (s s' : State) (a : A) :
  m s = (Ok a, s') -> bind m k s = k a s'.
Proof. unfold bind. now intros ->. Qed.

Ltac run :=
  unfold try_except, check_call, run_stdout, Popen, request, wait, find_spec, gets,
    unreal_log, unreal_log_warning, unreal_log_error, emit, set_fs, bind, ret, raise, lift;
  cbn [fst snd fs importable log spawned].

Lemma get_embedded_Some (env : Env) (s : State) (py : Path) :
  fst (get_embedded_python_exe env s) = Ok (Some py) ->
  get_embedded_python_exe env s = (Ok (Some py), s).
Proof.
  rewrite get_embedded_located. destruct (located _ _ _); simpl; [|discriminate].
  now intros H; injection H as ->.
Qed.

Lemma get_embedded_None (env : Env) (s : State) :
  fst (get_embedded_python_exe env s) = Ok None ->
  get_embedded_python_exe env s = (Ok None, warned s).
Proof.
  rewrite get_embedded_located. destruct (located _ _ _); simpl; [discriminate|reflexivity].
Qed.

Lemma get_embedded_cases (env : Env) (s : State) :
  (exists py, get_embedded_python_exe env s = (Ok (Some py), s))
  \/ get_embedded_python_exe env s = (Ok None, warned s).
Proof.
  rewrite get_embedded_located. destruct (located _ _ _); [left; eauto | now right].
Qed.

Lemma with_extra (extra : option (list string)) (cmd : list string) :
  (if truthy_list extra then (cmd ++ match extra with Some l => l | None => [] end)%list
   else cmd) = (cmd ++ extra_of extra)%list.
Proof. destruct extra as [[|x l]|]; simpl; now rewrite ?app_nil_r. Qed.

(** *** What each operation does once the interpreter is resolved *)

Lemma pip_install_run (env : Env) (package : string) (extra : option (list string))
    (s : State) (py : Path) :
  fst (get_embedded_python_exe env s) = Ok (Some py) ->
  let cmd := pip_install_cmd env py (extra_of extra) in
  let s1 := asked (logged s [(Display, "Running: " ++ join " " cmd)]) cmd in
  Install.pip_install_into_engine_sitepackages env package extra s
  = match child env cmd (fs s) (importable s) with
    | CannotStart => (Raise (OSError (hd "" cmd)), s1)
    | Exited rc out f i =>
        if (rc =? 0)%Z
        then (Ok true,
              logged (after_child s1 f i)
                     [(Display, "Installed into Engine Python site-packages.")])
        else (Ok false,
              logged (after_child s1 f i)
                     [(Error, "pip failed: " ++ exc_text env (CalledProcessError rc cmd))])
    end.
Proof.
  intros H. apply get_embedded_Some in H. cbv zeta.
  unfold Install.pip_install_into_engine_sitepackages.
  rewrite (bind_Ok _ _ _ _ _ H). rewrite with_extra.
  change ([str (windows env) py; "-m"; "pip"; "install"; "--no-warn-script-location";
           "PySide6"] ++ extra_of extra)%list
    with (pip_install_cmd env py (extra_of extra)).
  generalize (pip_install_cmd env py (extra_of extra)) as cmd. intros cmd.
  run. destruct (child env cmd (fs s) (importable s)) as [|rc out f i]; [reflexivity|].
  cbn [fst snd]. destruct (rc =? 0)%Z; reflexivity.
Qed.

Lemma pip_uninstall_run (env : Env) (package : string) (extra : option (list string))
    (s : State) (py : Path) :
  fst (get_embedded_python_exe env s) = Ok (Some py) ->
  let cmd := pip_uninstall_cmd env py package (extra_of extra) in
  let s1 := asked (logged s [(Display, "Running: " ++ join " " cmd)]) cmd in
  Uninstall.pip_uninstall_from_engine_sitepackages env package extra s
  = match child env cmd (fs s) (importable s) with
    | CannotStart => (Raise (OSError (hd "" cmd)), s1)
    | Exited rc out f i =>
        if (rc =? 0)%Z
        then (Ok true,
              logged (after_child s1 f i)
                     [(Display, "Successfully uninstalled " ++ package
                                ++ " from Engine Python site-packages.")])
        else (Ok false,
              logged (after_child s1 f i)
                     [(Error, "pip uninstall failed: "
                                ++ exc_text env (CalledProcessError rc cmd))])
    end.
Proof.
  intros H. apply get_embedded_Some in H. cbv zeta.
  unfold Uninstall.pip_uninstall_from_engine_sitepackages.
  rewrite (bind_Ok _ _ _ _ _ H). rewrite with_extra.
  change ([str (windows env) py; "-m"; "pip"; "uninstall"; "--yes"; package]
            ++ extra_of extra)%list
    with (pip_uninstall_cmd env py package (extra_of extra)).
  generalize (pip_uninstall_cmd env py package (extra_of extra)) as cmd. intros cmd.
  run. destruct (child env cmd (fs s) (importable s)) as [|rc out f i]; [reflexivity|].
  cbn [fst snd]. destruct (rc =? 0)%Z; reflexivity.
Qed.

(** *** The reference executable *)

Lemma startswith_lower (p s : string) :
  startswith (lower s) (lower p) = begins_ignoring_case p s.
Proof.
  unfold startswith. revert s. induction p as [|a p IH]; intros [|b s]; simpl;
    try reflexivity.
  destruct (ascii_dec (lower_ascii a) (lower_ascii b)) as [E|E].
  - rewrite E, Ascii.eqb_refl. apply IH.
  - apply Ascii.eqb_neq in E. now rewrite E.
Qed.

(** C8. The executable the locator starts from is [sys.executable] when its
    file name begins with [unrealeditor], letter case set aside, and the
    resolved [sys.argv[0]] otherwise; [get_embedded_python_exe] reports what
    the locator finds from there. *)
Theorem reference_executable_by_name (env : Env) (s : State) :
  let exe := PurePath (windows env) (sys_executable env) in
  let reference :=
    if begins_ignoring_case "unrealeditor" (name exe) then exe
    else resolve env (PurePath (windows env) (sys_argv0 env)) in
  get_unreal_editor_exe env = reference /\
  fst (get_embedded_python_exe env s)
  = fst (_guess_embedded_python_exe_from_editor env reference s).
Proof.
  cbv zeta.
  assert (E : get_unreal_editor_exe env
              = if begins_ignoring_case "unrealeditor"
                     (name (PurePath (windows env) (sys_executable env)))
                then PurePath (windows env) (sys_executable env)
                else resolve env (PurePath (windows env) (sys_argv0 env))).
  { unfold get_unreal_editor_exe.
    now rewrite <- (startswith_lower "unrealeditor"). }
  split; [exact E|].
  rewrite <- E, get_embedded_located, guess_located.
  now destruct (located _ _ _).
Qed.

(** Inside the editor [sys.executable] is the editor; under a plain
    interpreter the script's own path is taken instead. *)
Example reference_executable_samples :
  get_unreal_editor_exe (Sample.linux Sample.no_child)
  = Sample.P "/ue/Engine/Binaries/Linux/UnrealEditor"
  /\ get_unreal_editor_exe
       (mkEnv "win32" "C:\Program Files\Epic Games\UE_5.4\Engine\Binaries\Win64\UNREALEDITOR-Cmd.exe"
              "" (fun p => p) Sample.no_child Sample.text)
     = mkPath "C:\" ["Program Files"; "Epic Games"; "UE_5.4"; "Engine"; "Binaries"; "Win64";
                     "UNREALEDITOR-Cmd.exe"]
  /\ get_unreal_editor_exe
       (mkEnv "linux" "/usr/bin/python3" "/ue/Engine/Binaries/Linux/run.py"
              (fun p => p) Sample.no_child Sample.text)
     = Sample.P "/ue/Engine/Binaries/Linux/run.py".
Proof. vm_compute. repeat split. Qed.

(** *** Install and uninstall follow the exit code *)

(** C4. With the interpreter resolved to [py], when the pip child runs to
    its end with exit code [rc], install and uninstall return [true] exactly
    when [rc] is zero and [false] otherwise; neither raises. *)
Theorem pip_result_follows_exit_code
    (env : Env) (package : string) (extra : option (list string))
    (s : State) (py : Path) :
  fst (get_embedded_python_exe env s) = Ok (Some py) ->
  (forall rc out f i,
     child env (pip_install_cmd env py (extra_of extra)) (fs s) (importable s)
     = Exited rc out f i ->
     fst (Install.pip_install_into_engine_sitepackages env package extra s)
     = Ok (rc =? 0)%Z)
  /\
  (forall rc out f i,
     child env (pip_uninstall_cmd env py package (extra_of extra)) (fs s) (importable s)
     = Exited rc out f i ->
     fst (Uninstall.pip_uninstall_from_engine_sitepackages env package extra s)
     = Ok (rc =? 0)%Z).
Proof.
  intros Hpy. split; intros rc out f i Hc.
  - rewrite (pip_install_run _ _ _ _ _ Hpy). cbv zeta. rewrite Hc.
    now destruct (rc =? 0)%Z.
  - rewrite (pip_uninstall_run _ _ _ _ _ Hpy). cbv zeta. rewrite Hc.
    now destruct (rc =? 0)%Z.
Qed.

Lemma pip_result_follows_exit_code_witness :
  fst (get_embedded_python_exe (Sample.linux Sample.failing_child)
         (Sample.start Sample.engine_fs ["PySide6"]))
  = Ok (Some (Sample.P Sample.python3))
  /\ fst (Install.pip_install_into_engine_sitepackages
            (Sample.linux Sample.working_child) "PySide6" None
            (Sample.start Sample.engine_fs []))
     = Ok true
  /\ fst (Uninstall.pip_uninstall_from_engine_sitepackages
            (Sample.linux Sample.failing_child) "PySide6" None
            (Sample.start Sample.engine_fs ["PySide6"]))
     = Ok false.
Proof.
  split; [vm_compute; reflexivity|]. split.
  - exact (proj1 (pip_result_follows_exit_code
                    (Sample.linux Sample.working_child) "PySide6" None
                    (Sample.start Sample.engine_fs []) (Sample.P Sample.python3)
                    eq_refl)
             0%Z "" Sample.engine_fs ["PySide6"] eq_refl).
  - exact (proj2 (pip_result_follows_exit_code
                    (Sample.linux Sample.failing_child) "PySide6" None
                    (Sample.start Sample.engine_fs ["PySide6"]) (Sample.P Sample.python3)
                    eq_refl)
             1%Z "" Sample.engine_fs ["PySide6"] eq_refl).
Defined.

(** *** The command lines *)

Lemma pip_install_spawns (env : Env) (package : string) (extra : option (list string))
    (s : State) (py : Path) :
  fst (get_embedded_python_exe env s) = Ok (Some py) ->
  spawned (snd (Install.pip_install_into_engine_sitepackages env package extra s))
  = (spawned s ++ [pip_install_cmd env py (extra_of extra)])%list.
Proof.
  intros Hpy. rewrite (pip_install_run _ _ _ _ _ Hpy). cbv zeta.
  destruct (child _ _ _ _) as [|rc out f i]; [reflexivity|].
  now destruct (rc =? 0)%Z.
Qed.

(** The uninstaller does name the package it is given. *)
Lemma pip_uninstall_spawns (env : Env) (package : string) (extra : option (list string))
    (s : State) (py : Path) :
  fst (get_embedded_python_exe env s) = Ok (Some py) ->
  spawned (snd (Uninstall.pip_uninstall_from_engine_sitepackages env package extra s))
  = (spawned s
       ++ [([str (windows env) py; "-m"; "pip"; "uninstall"; "--yes"; package]
              ++ extra_of extra)])%list.
Proof.
  intros Hpy. rewrite (pip_uninstall_run _ _ _ _ _ Hpy). cbv zeta.
  destruct (child _ _ _ _) as [|rc out f i]; [reflexivity|].
  now destruct (rc =? 0)%Z.
Qed.

(** C3, at a failing input.  Asked to install [numpy], the installer spawns a
    command line that names [PySide6]: the [package] argument is not used. *)
Lemma install_command_ignores_package :
  spawned (snd (Install.pip_install_into_engine_sitepackages
                  (Sample.linux Sample.working_child) "numpy" None
                  (Sample.start Sample.engine_fs [])))
  = [[Sample.python3; "-m"; "pip"; "install"; "--no-warn-script-location"; "PySide6"]].
Proof. vm_compute. reflexivity. Qed.

(** *** The probe *)

(** C6. The probe [check_pyside6_installed] answers [true] exactly when
    [importlib] can resolve [PySide6], and leaves the state as it found it: no
    process is asked for, nothing is logged.  The installer's entry point makes
    the same test first: when the package is resolvable it returns [true]
    without asking for a process, and only otherwise goes on to pip. *)
Theorem probe_is_find_spec_only (env : Env) (s : State) :
  Uninstall.check_pyside6_installed s = (Ok (resolvable "PySide6" s), s)
  /\ Install.ensure_pyside2 env s
     = if resolvable "PySide6" s
       then (Ok true, logged s [(Display, "✅ PySide6 already available.")])
       else Install.pip_install_into_engine_sitepackages env "PySide6" None
              (logged s [(Warning, "PySide6 not found. Attempting installation...")]).
Proof.
  unfold Uninstall.check_pyside6_installed, Install.ensure_pyside2, resolvable. run.
  destruct (existsb _ _); split; reflexivity.
Qed.

(** *** Without an interpreter *)

(** Without an interpreter each operation logs the error and stops. *)
Lemma without_interpreter
    (env : Env) (package : string) (extra : option (list string)) (s : State) :
  fst (get_embedded_python_exe env s) = Ok None ->
  let stopped := logged (warned s) [(Error, "No embedded Python found.")] in
  Install.pip_install_into_engine_sitepackages env package extra s = (Ok false, stopped)
  /\ Uninstall.pip_uninstall_from_engine_sitepackages env package extra s
     = (Ok false, stopped)
  /\ Uninstall.get_pyside6_installation_info env s = (Ok None, stopped)
  /\ Uninstall.list_installed_packages env s = (Ok tt, stopped)
  /\ Uninstall.cleanup_pyside6_cache env s = (Ok false, stopped)
  /\ open_python_folder_in_explorer env s = (Ok tt, stopped)
  /\ open_cmd_at_python env s = (Ok tt, stopped).
Proof.
  intros H. apply get_embedded_None in H.
  unfold Install.pip_install_into_engine_sitepackages,
    Uninstall.pip_uninstall_from_engine_sitepackages,
    Uninstall.get_pyside6_installation_info, Uninstall.list_installed_packages,
    Uninstall.cleanup_pyside6_cache, open_python_folder_in_explorer, open_cmd_at_python.
  rewrite !(bind_Ok _ _ _ _ _ H).
  repeat split; reflexivity.
Qed.

(** C7. When the locator finds no interpreter, install, uninstall, show-info,
    list-all, cleanup and the two helpers stop at once: they return [false] or
    nothing, ask for no process and leave the file system as it is. *)
Theorem no_interpreter_no_action
    (env : Env) (package : string) (extra : option (list string)) (s : State) :
  fst (get_embedded_python_exe env s) = Ok None ->
  (fst (Install.pip_install_into_engine_sitepackages env package extra s) = Ok false
   /\ untouched s (snd (Install.pip_install_into_engine_sitepackages env package extra s)))
  /\ (fst (Uninstall.pip_uninstall_from_engine_sitepackages env package extra s) = Ok false
      /\ untouched s (snd (Uninstall.pip_uninstall_from_engine_sitepackages
                             env package extra s)))
  /\ (fst (Uninstall.get_pyside6_installation_info env s) = Ok None
      /\ untouched s (snd (Uninstall.get_pyside6_installation_info env s)))
  /\ (fst (Uninstall.list_installed_packages env s) = Ok tt
      /\ untouched s (snd (Uninstall.list_installed_packages env s)))
  /\ (fst (Uninstall.cleanup_pyside6_cache env s) = Ok false
      /\ untouched s (snd (Uninstall.cleanup_pyside6_cache env s)))
  /\ (fst (open_python_folder_in_explorer env s) = Ok tt
      /\ untouched s (snd (open_python_folder_in_explorer env s)))
  /\ (fst (open_cmd_at_python env s) = Ok tt
      /\ untouched s (snd (open_cmd_at_python env s))).
Proof.
  intros H.
  destruct (without_interpreter env package extra s H) as (A & B & C & D & E & F & G).
  rewrite A, B, C, D, E, F, G. cbn [fst snd].
  assert (U : untouched s (logged (warned s) [(Error, "No embedded Python found.")]))
    by (split; reflexivity).
  repeat split; try reflexivity; apply U.
Qed.

Lemma no_interpreter_no_action_witness :
  fst (get_embedded_python_exe (Sample.linux Sample.working_child)
         (Sample.start [] ["PySide6"])) = Ok None
  /\ fst (Uninstall.cleanup_pyside6_cache (Sample.linux Sample.working_child)
            (Sample.start [] ["PySide6"])) = Ok false
  /\ untouched (Sample.start [] ["PySide6"])
       (snd (Uninstall.cleanup_pyside6_cache (Sample.linux Sample.working_child)
               (Sample.start [] ["PySide6"]))).
Proof.
  split; [reflexivity|].
  destruct (no_interpreter_no_action (Sample.linux Sample.working_child)
              "PySide6" None (Sample.start [] ["PySide6"]) eq_refl)
    as (_ & _ & _ & _ & H & _).
  exact H.
Defined.

(** *** Removing entries *)

Lemma In_exists (f : FS) (p : Path) (n : node) : In (p, n) f -> exists_ f p = true.
Proof.
  unfold exists_. induction f as [|[q m] f IH]; simpl; [contradiction|].
  intros [H|H].
  - injection H as -> ->. now rewrite Path_eqb_refl.
  - destruct (Path_eqb q p); [reflexivity | auto].
Qed.

Lemma exists_incl (f f' : FS) (p : Path) :
  incl f' f -> exists_ f p = false -> exists_ f' p = false.
Proof.
  intros Hi Hf. destruct (exists_ f' p) eqn:E; [|reflexivity].
  unfold exists_ in E. destruct (stat f' p) as [n|] eqn:En; [|discriminate].
  apply stat_In, Hi, In_exists in En. congruence.
Qed.

Lemma removable_incl (f f' : FS) (h : Path) :
  incl f' f -> removable f h -> removable f' h.
Proof. intros Hi Hr e He. apply Hr, Hi, He. Qed.

Lemma filter_filter_below (p : Path) (k g : Path * node -> bool) (f : FS) :
  (forall e, k e = false -> beneath p (fst e) = true) ->
  (forall e, beneath p (fst e) = true -> g e = false) ->
  filter g (filter k f) = filter g f.
Proof.
  intros Hk Hg. induction f as [|e f IH]; simpl; [reflexivity|].
  destruct (k e) eqn:E; simpl; [now rewrite IH|].
  now rewrite (Hg e (Hk e E)).
Qed.

Lemma rmtree_until_locked_incl (p : Path) (f : FS) : incl (rmtree_until_locked p f) f.
Proof.
  induction f as [|[q n] f IH]; simpl; [apply incl_refl|].
  destruct (beneath p q); [destruct (locked n); [apply incl_refl|destruct (nkind n)]|].
  - now apply incl_tl.
  - apply incl_cons; [now left | now apply incl_tl].
  - apply incl_cons; [now left | now apply incl_tl].
Qed.

Lemma rmtree_until_locked_frame (p : Path) (g : Path * node -> bool) (f : FS) :
  (forall e, beneath p (fst e) = true -> g e = false) ->
  filter g (rmtree_until_locked p f) = filter g f.
Proof.
  intros Hg. induction f as [|[q n] f IH]; simpl; [reflexivity|].
  destruct (beneath p q) eqn:B.
  - destruct (locked n); [reflexivity|]. destruct (nkind n); simpl.
    + now rewrite (Hg (q, n) B).
    + now rewrite IH.
  - simpl. now rewrite IH.
Qed.

Lemma stat_filter_none (p : Path) (k : Path * node -> bool) (f : FS) :
  (forall n, k (p, n) = false) -> stat (filter k f) p = None.
Proof.
  intros Hk. induction f as [|[q n] f IH]; simpl; [reflexivity|].
  destruct (k (q, n)) eqn:E; [|exact IH]. simpl.
  destruct (Path_eqb q p) eqn:Q; [|exact IH].
  apply Path_eqb_eq in Q. subst. now rewrite Hk in E.
Qed.

(** One turn of the loop: it never raises, it logs the path and then either
    a removal or a warning, and it removes entries at or below the path only;
    a path that nothing locks is gone afterwards, and a path that is still
    there has had its warning. *)
Lemma remove_one_spec (env : Env) (p : Path) (s : State) :
  exists s' entry,
    Uninstall.remove_one env p s = (Ok tt, s')
    /\ log s' = (log s ++ [(Display, ("  - " ++ str (windows env) p)%string); entry])%list
    /\ removes_below p s s'
    /\ (removable (fs s) p -> exists_ (fs s') p = false)
    /\ (exists_ (fs s') p = true ->
        exists e, entry = (Warning, could_not_remove env p e)).
Proof.
  unfold Uninstall.remove_one. run. unfold is_dir at 1.
  destruct (stat (fs s) p) as [n|] eqn:St; [destruct (nkind n) eqn:K|].
  - (* a file *)
    unfold unlink. run. rewrite St, K.
    destruct (locked n) eqn:L.
    + eexists _, _. split; [reflexivity|]. cbn [fs importable log spawned].
      rewrite <- app_assoc. split; [reflexivity|].
      split; [repeat split; try reflexivity; apply incl_refl|]. split.
      * intros Hr. specialize (Hr (p, n) (stat_In _ _ _ St) (beneath_refl p)).
        simpl in Hr. congruence.
      * intros _. eexists. reflexivity.
    + assert (G : exists_ (filter (fun e => negb (Path_eqb (fst e) p)) (fs s)) p = false).
      { unfold exists_. rewrite stat_filter_none; [reflexivity|].
        intros m. simpl. now rewrite Path_eqb_refl. }
      eexists _, _. split; [reflexivity|]. cbn [fs importable log spawned].
      rewrite <- app_assoc. split; [reflexivity|]. split; [|split].
      * repeat split; try reflexivity; cbn [fs].
        -- intros e He. now apply filter_In in He.
        -- intros g Hg. apply (filter_filter_below p); [|exact Hg].
           intros e He. apply negb_false_iff, Path_eqb_eq in He. rewrite He.
           apply beneath_refl.
      * intros _. exact G.
      * rewrite G. discriminate.
  - (* a directory *)
    unfold rmtree, is_dir. run. rewrite St, K. cbn [negb].
    destruct (existsb (fun e => beneath p (fst e) && locked (snd e)) (fs s)) eqn:X.
    + eexists _, _. split; [reflexivity|]. cbn [fs importable log spawned].
      rewrite <- app_assoc. split; [reflexivity|]. split; [|split].
      * repeat split; try reflexivity; cbn [fs].
        -- apply rmtree_until_locked_incl.
        -- intros g Hg. now apply rmtree_until_locked_frame.
      * intros Hr. apply existsb_exists in X as (e & He & Hb).
        apply andb_true_iff in Hb as [Hb Hl]. rewrite (Hr e He Hb) in Hl. discriminate.
      * intros _. eexists. reflexivity.
    + assert (G : exists_ (filter (fun e => negb (beneath p (fst e))) (fs s)) p = false).
      { unfold exists_. rewrite stat_filter_none; [reflexivity|].
        intros m. simpl. now rewrite beneath_refl. }
      eexists _, _. split; [reflexivity|]. cbn [fs importable log spawned].
      rewrite <- app_assoc. split; [reflexivity|]. split; [|split].
      * repeat split; try reflexivity; cbn [fs].
        -- intros e He. now apply filter_In in He.
        -- intros g Hg. apply (filter_filter_below p); [|exact Hg].
           intros e He. now apply negb_false_iff in He.
      * intros _. exact G.
      * rewrite G. discriminate.
  - (* nothing there *)
    unfold unlink. run. rewrite St.
    eexists _, _. split; [reflexivity|]. cbn [fs importable log spawned].
    rewrite <- app_assoc. split; [reflexivity|].
    split; [repeat split; try reflexivity; apply incl_refl|]. split.
    + intros _. unfold exists_. now rewrite St.
    + intros _. eexists. reflexivity.
Qed.

(** The whole loop: it never raises, every path is listed in the log, entries
    are removed at or below the paths only, every path that nothing locks is
    gone at the end, whatever happened to the others, and every path that is
    still there has its warning in the log. *)
Lemma remove_all_spec (env : Env) (paths : list Path) :
  forall s, exists s',
    Uninstall.remove_all env paths s = (Ok tt, s')
    /\ (exists l, log s' = (log s ++ l)%list)
    /\ (forall h, In h paths ->
          In (Display, ("  - " ++ str (windows env) h)%string) (log s'))
    /\ removes_within paths s s'
    /\ (forall h, In h paths -> removable (fs s) h -> exists_ (fs s') h = false)
    /\ (forall h, In h paths -> exists_ (fs s') h = true ->
          exists e, In (Warning, could_not_remove env h e) (log s')).
Proof.
  induction paths as [|p paths IH]; intros s.
  - exists s. split; [reflexivity|]. split; [exists []; now rewrite app_nil_r|].
    split; [intros h []|]. split; [|split; intros h []].
    repeat split; try reflexivity. apply incl_refl.
  - destruct (remove_one_spec env p s)
      as (s1 & entry & R1 & L1 & (I1 & S1 & C1 & F1) & G1 & W1).
    destruct (IH s1) as (s' & R & (l & L) & A & (I & S & C & F) & G & W).
    exists s'. cbn [Uninstall.remove_all]. rewrite (bind_Ok _ _ _ _ _ R1).
    split; [exact R|]. split; [|split; [|split; [|split]]].
    + eexists. rewrite L, L1, <- app_assoc. reflexivity.
    + intros h [<-|Hh]; [|now apply A].
      rewrite L, L1. apply in_or_app. left. apply in_or_app. right. now left.
    + repeat split.
      * congruence.
      * congruence.
      * intros e He. now apply C1, C.
      * intros g Hg. rewrite F, F1; [reflexivity| |].
        -- intros e He. apply (Hg e p); [now left | exact He].
        -- intros e h Hh He. apply (Hg e h); [now right | exact He].
    + intros h [<-|Hh] Hr.
      * apply (exists_incl (fs s1)); [exact C | now apply G1].
      * apply G; [exact Hh|]. now apply (removable_incl (fs s)).
    + intros h [<-|Hh] He; [|now apply W].
      destruct (exists_ (fs s1) p) eqn:E1.
      * destruct (W1 eq_refl) as (e & ->). exists e.
        rewrite L, L1. apply in_or_app. left. apply in_or_app. right. right. now left.
      * rewrite (exists_incl _ _ _ C E1) in He. discriminate.
Qed.

Lemma remove_all_Ok (env : Env) (paths : list Path) (s : State) :
  Uninstall.remove_all env paths s = (Ok tt, snd (Uninstall.remove_all env paths s)).
Proof. destruct (remove_all_spec env paths s) as (s' & R & _). now rewrite R. Qed.

(** Every path the cleanup collects is a child of the directory whose name
    matches one of the three patterns. *)
Lemma pyside_paths_match (env : Env) (f : FS) (d h : Path) :
  In h (Uninstall.pyside_paths env f d) ->
  In h (map fst f) /\ is_child d h = true
  /\ exists pat, In pat Uninstall.patterns /\ fnmatch (windows env) pat (name h) = true.
Proof.
  unfold Uninstall.pyside_paths. rewrite in_flat_map. intros (pat & Hpat & Hin).
  unfold Path_glob in Hin. apply in_map_iff in Hin as (e & <- & He).
  apply filter_In in He as [He Hm]. apply andb_true_iff in Hm as [Hc Hm].
  split; [now apply in_map|]. split; [exact Hc|]. now exists pat.
Qed.

(** *** What the remaining operations do once the interpreter is resolved *)

Lemma cleanup_run (env : Env) (s : State) (py : Path) :
  fst (get_embedded_python_exe env s) = Ok (Some py) ->
  let cmd := site_query_cmd env py in
  Uninstall.cleanup_pyside6_cache env s
  = match child env cmd (fs s) (importable s) with
    | CannotStart => (Raise (OSError (hd "" cmd)), asked s cmd)
    | Exited rc out f i =>
        let s1 := after_child (asked s cmd) f i in
        if (rc =? 0)%Z then
          let paths := Uninstall.pyside_paths env f (PurePath (windows env) (strip out)) in
          match paths with
          | [] => (Ok true, logged s1 [(Display, "✅ No PySide6 remnants found.")])
          | _ :: _ =>
              (Ok true,
               snd (Uninstall.remove_all env paths
                      (logged s1 [(Display, "🧹 Found potential PySide6 remnants:")])))
          end
        else
          (Ok false,
           logged s1 [(Error, "Failed to get site-packages directory: "
                                ++ exc_text env (CalledProcessError rc cmd))])
    end.
Proof.
  intros H. apply get_embedded_Some in H. cbv zeta.
  unfold Uninstall.cleanup_pyside6_cache.
  rewrite (bind_Ok _ _ _ _ _ H).
  change [str (windows env) py; "-c"; "import site; print(site.getsitepackages()[0])"]
    with (site_query_cmd env py).
  generalize (site_query_cmd env py) as cmd. intros cmd.
  run. destruct (child env cmd (fs s) (importable s)) as [|rc out f i]; [reflexivity|].
  cbn [fst snd]. destruct (rc =? 0)%Z; [|reflexivity].
  cbn [fs importable log spawned].
  destruct (Uninstall.pyside_paths env f (PurePath (windows env) (strip out)))
    as [|h paths] eqn:E; [reflexivity|].
  rewrite remove_all_Ok. reflexivity.
Qed.

(** *** The cleanup *)

Lemma outside_hits (hits : list Path) (e : Path * node) (h : Path) :
  In h hits -> beneath h (fst e) = true -> outside hits e = false.
Proof.
  intros Hh Hb. unfold outside. apply negb_false_iff, existsb_exists. now exists h.
Qed.

(** C5. With the interpreter resolved and the site query answered (it leaves
    the file system [f] and prints the directory), the cleanup returns [true]
    and raises nothing.  What it collects are children of the site-packages
    directory whose names match [PySide6*], [shiboken6*] or [*pyside6*];
    entries of [f] that are not at or below one of them stay as they are, in
    place, and nothing is created.  Every collected path is listed in the log
    before its removal is tried; a path that nothing locks is gone at the end
    even when the removal of others failed, and a path that is still there has
    its warning in the log. *)
Theorem cleanup_removes_matches_only
    (env : Env) (s : State) (py : Path) (out : string) (f : FS) (i : list string) :
  fst (get_embedded_python_exe env s) = Ok (Some py) ->
  child env (site_query_cmd env py) (fs s) (importable s) = Exited 0 out f i ->
  let site_packages := PurePath (windows env) (strip out) in
  let hits := Uninstall.pyside_paths env f site_packages in
  let r := Uninstall.cleanup_pyside6_cache env s in
  fst r = Ok true
  /\ (forall h, In h hits ->
        In h (map fst f) /\ is_child site_packages h = true
        /\ exists pat, In pat Uninstall.patterns
                       /\ fnmatch (windows env) pat (name h) = true)
  /\ incl (fs (snd r)) f
  /\ filter (outside hits) (fs (snd r)) = filter (outside hits) f
  /\ (forall h, In h hits ->
        In (Display, ("  - " ++ str (windows env) h)%string) (log (snd r)))
  /\ (forall h, In h hits -> removable f h -> exists_ (fs (snd r)) h = false)
  /\ (forall h, In h hits -> exists_ (fs (snd r)) h = true ->
        exists e, In (Warning, could_not_remove env h e) (log (snd r))).
Proof.
  intros Hpy Hc. cbv zeta. rewrite (cleanup_run _ _ _ Hpy). cbv zeta. rewrite Hc.
  cbn [Z.eqb].
  split; [now destruct (Uninstall.pyside_paths _ _ _)|].
  split; [intros h; apply pyside_paths_match|].
  destruct (Uninstall.pyside_paths env f (PurePath (windows env) (strip out)))
    as [|h0 paths] eqn:E.
  - cbn [snd fs logged after_child asked]. split; [apply incl_refl|].
    split; [reflexivity|]. repeat split; intros h [].
  - set (s0 := logged (after_child (asked s (site_query_cmd env py)) f i)
                 [(Display, "🧹 Found potential PySide6 remnants:")]).
    destruct (remove_all_spec env (h0 :: paths) s0)
      as (s' & R & _ & A & (_ & _ & C & F) & G & W).
    rewrite R. cbn [snd].
    split; [exact C|]. split; [|split; [exact A|split; [exact G|exact W]]].
    apply F. intros e h. apply outside_hits.
Qed.

Lemma cleanup_removes_matches_only_witness :
  fst (get_embedded_python_exe (Sample.linux Sample.working_child)
         (Sample.start Sample.engine_fs []))
  = Ok (Some (Sample.P Sample.python3))
  /\ child (Sample.linux Sample.working_child)
       (site_query_cmd (Sample.linux Sample.working_child) (Sample.P Sample.python3))
       Sample.engine_fs []
     = Exited 0 (Sample.site_packages ++ Sample.newline) Sample.engine_fs []
  /\ fst (Uninstall.cleanup_pyside6_cache (Sample.linux Sample.working_child)
            (Sample.start Sample.engine_fs []))
     = Ok true
  /\ incl (fs (snd (Uninstall.cleanup_pyside6_cache (Sample.linux Sample.working_child)
                      (Sample.start Sample.engine_fs []))))
       Sample.engine_fs.
Proof.
  split; [reflexivity|]. split; [reflexivity|].
  destruct (cleanup_removes_matches_only (Sample.linux Sample.working_child)
              (Sample.start Sample.engine_fs []) (Sample.P Sample.python3)
              (Sample.site_packages ++ Sample.newline) Sample.engine_fs []
              eq_refl eq_refl)
    as (T & _ & I & _).
  split; [exact T | exact I].
Defined.

(** On the sample tree: [numpy] and [six.py] stay, [shiboken6] and the [.pth]
    file go, and [PySide6], which holds a locked file, stays with a warning. *)
Example cleanup_on_sample_tree :
  map fst (fs (snd (Uninstall.cleanup_pyside6_cache (Sample.linux Sample.working_child)
                      (Sample.start Sample.engine_fs []))))
  = map Sample.P
      [ "/ue/Engine/Binaries/ThirdParty";
        "/ue/Engine/Binaries/ThirdParty/Python3";
        "/ue/Engine/Binaries/ThirdParty/Python3/Linux";
        "/ue/Engine/Binaries/ThirdParty/Python3/Linux/bin";
        Sample.python3;
        Sample.site_packages;
        Sample.site_packages ++ "/numpy";
        Sample.site_packages ++ "/numpy/core.py";
        Sample.site_packages ++ "/PySide6";
        Sample.site_packages ++ "/PySide6/QtCore.abi3.so";
        Sample.site_packages ++ "/six.py" ]
  /\ map fst (log (snd (Uninstall.cleanup_pyside6_cache
                          (Sample.linux Sample.working_child)
                          (Sample.start Sample.engine_fs []))))
     = [Display; Display; Warning; Display; Display; Display; Display].
Proof. vm_compute. split; reflexivity. Qed.

(** C10, as the claim states it, fails here: there is no interpreter, so no
    query is ever spawned (none that could fail), and the result is [false]. *)
Lemma cleanup_false_without_query :
  fst (Uninstall.cleanup_pyside6_cache (Sample.linux Sample.working_child)
         (Sample.start [] ["PySide6"])) = Ok false
  /\ spawned (snd (Uninstall.cleanup_pyside6_cache (Sample.linux Sample.working_child)
                     (Sample.start [] ["PySide6"]))) = [].
Proof. vm_compute. split; reflexivity. Qed.

(** C10, amended. The cleanup returns [true] exactly when the interpreter is
    resolved and the site query exits with code zero, whatever the removals
    did; it returns [false] exactly when no interpreter is found or the query
    exits with a non-zero code. *)
Theorem cleanup_result_is_the_query_result (env : Env) (s : State) :
  (fst (Uninstall.cleanup_pyside6_cache env s) = Ok true <->
   exists py out f i,
     fst (get_embedded_python_exe env s) = Ok (Some py)
     /\ child env (site_query_cmd env py) (fs s) (importable s) = Exited 0 out f i)
  /\
  (fst (Uninstall.cleanup_pyside6_cache env s) = Ok false <->
   fst (get_embedded_python_exe env s) = Ok None
   \/ exists py rc out f i,
        fst (get_embedded_python_exe env s) = Ok (Some py)
        /\ child env (site_query_cmd env py) (fs s) (importable s) = Exited rc out f i
        /\ rc <> 0%Z).
Proof.
  destruct (get_embedded_cases env s) as [(py & Hpy)|Hn].
  - assert (H : fst (get_embedded_python_exe env s) = Ok (Some py)) by now rewrite Hpy.
    rewrite (cleanup_run _ _ _ H). cbv zeta. rewrite H.
    destruct (child env (site_query_cmd env py) (fs s) (importable s))
      as [|rc out f i] eqn:Hc.
    + split; split; try discriminate.
      * intros (py' & out & f & i & E & C). injection E as <-. congruence.
      * intros [E|(py' & rc & out & f & i & E & C & _)]; [discriminate|].
        injection E as <-. congruence.
    + destruct (Z.eqb_spec rc 0) as [->|Hrc].
      * assert (T : forall st, fst (match Uninstall.pyside_paths env f
                                            (PurePath (windows env) (strip out)) with
                                    | [] => (Ok true, st)
                                    | _ :: _ =>
                                        (Ok true,
                                         snd (Uninstall.remove_all env
                                                (Uninstall.pyside_paths env f
                                                   (PurePath (windows env) (strip out)))
                                                (logged (after_child
                                                           (asked s (site_query_cmd env py))
                                                           f i)
                                                   [(Display,
                                                     "🧹 Found potential PySide6 remnants:")])))
                                    end) = Ok true)
          by (intros st; now destruct (Uninstall.pyside_paths _ _ _)).
        rewrite T. split; split; try discriminate.
        -- intros _. now exists py, out, f, i.
        -- reflexivity.
        -- intros [E|(py' & rc & out' & f' & i' & E & C & Hrc)]; [discriminate|].
           injection E as <-. rewrite Hc in C. injection C as <- _ _ _.
           now contradiction Hrc.
      * cbn [fst]. split; split; try discriminate.
        -- intros (py' & out' & f' & i' & E & C). injection E as <-.
           rewrite Hc in C. injection C as -> _ _ _. now contradiction Hrc.
        -- intros _. right. now exists py, rc, out, f, i.
        -- reflexivity.
  - unfold Uninstall.cleanup_pyside6_cache. rewrite (bind_Ok _ _ _ _ _ Hn), Hn.
    cbn. split; split; try discriminate.
    + intros (py & out & f & i & E & _). discriminate.
    + intros _. now left.
    + reflexivity.
Qed.

Lemma cleanup_result_is_the_query_result_witness :
  fst (get_embedded_python_exe (Sample.linux Sample.working_child)
         (Sample.start Sample.stubborn_fs []))
  = Ok (Some (Sample.P Sample.python3))
  /\ fst (Uninstall.cleanup_pyside6_cache (Sample.linux Sample.working_child)
            (Sample.start Sample.stubborn_fs []))
     = Ok true
  /\ fs (snd (Uninstall.cleanup_pyside6_cache (Sample.linux Sample.working_child)
                (Sample.start Sample.stubborn_fs [])))
     = Sample.stubborn_fs.
Proof.
  split; [reflexivity|]. split; [|vm_compute; reflexivity].
  apply (proj1 (cleanup_result_is_the_query_result
                  (Sample.linux Sample.working_child)
                  (Sample.start Sample.stubborn_fs []))).
  exists (Sample.P Sample.python3), (Sample.site_packages ++ Sample.newline),
    Sample.stubborn_fs, []. split; reflexivity.
Defined.

Lemma show_info_run (env : Env) (s : State) (py : Path) :
  fst (get_embedded_python_exe env s) = Ok (Some py) ->
  let cmd := [str (windows env) py; "-m"; "pip"; "show"; "PySide6"] in
  Uninstall.get_pyside6_installation_info env s
  = match child env cmd (fs s) (importable s) with
    | CannotStart => (Raise (OSError (hd "" cmd)), asked s cmd)
    | Exited rc out f i =>
        (if (rc =? 0)%Z then Ok (Some out) else Ok None, after_child (asked s cmd) f i)
    end.
Proof.
  intros H. apply get_embedded_Some in H. cbv zeta.
  unfold Uninstall.get_pyside6_installation_info.
  rewrite (bind_Ok _ _ _ _ _ H).
  generalize [str (windows env) py; "-m"; "pip"; "show"; "PySide6"] as cmd. intros cmd.
  run. destruct (child env cmd (fs s) (importable s)) as [|rc out f i]; [reflexivity|].
  cbn [fst snd]. destruct (rc =? 0)%Z; reflexivity.
Qed.

Lemma list_run (env : Env) (s : State) (py : Path) :
  fst (get_embedded_python_exe env s) = Ok (Some py) ->
  let cmd := [str (windows env) py; "-m"; "pip"; "list"] in
  let s1 := asked (logged s [(Display, "📦 Packages installed in engine Python:")]) cmd in
  Uninstall.list_installed_packages env s
  = match child env cmd (fs s) (importable s) with
    | CannotStart => (Raise (OSError (hd "" cmd)), s1)
    | Exited rc out f i =>
        (Ok tt,
         logged (after_child s1 f i)
           [if (rc =? 0)%Z then (Display, out)
            else (Error, "Failed to list packages: "
                           ++ exc_text env (CalledProcessError rc cmd))])
    end.
Proof.
  intros H. apply get_embedded_Some in H. cbv zeta.
  unfold Uninstall.list_installed_packages.
  rewrite (bind_Ok _ _ _ _ _ H).
  generalize [str (windows env) py; "-m"; "pip"; "list"] as cmd. intros cmd.
  run. destruct (child env cmd (fs s) (importable s)) as [|rc out f i]; [reflexivity|].
  cbn [fst snd]. destruct (rc =? 0)%Z; reflexivity.
Qed.

(** *** Exceptions *)

(** C2, as the claim states it, fails here: the candidate exists, so the
    interpreter is found, but it is not executable; the child cannot be
    started and [OSError] leaves the install operation. *)
Lemma install_raises_when_child_cannot_start :
  fst (get_embedded_python_exe (Sample.linux Sample.needs_x_bit)
         (Sample.start Sample.unusable_fs []))
  = Ok (Some (Sample.P Sample.python3))
  /\ fst (Install.pip_install_into_engine_sitepackages
            (Sample.linux Sample.needs_x_bit) "PySide6" None
            (Sample.start Sample.unusable_fs []))
     = Raise (OSError Sample.python3).
Proof. vm_compute. split; reflexivity. Qed.

(** *** The two entry points *)

Lemma ensure_run (env : Env) (s : State) :
  Install.ensure_pyside2 env s
  = if resolvable "PySide6" s
    then (Ok true, logged s [(Display, "✅ PySide6 already available.")])
    else Install.pip_install_into_engine_sitepackages env "PySide6" None
           (logged s [(Warning, "PySide6 not found. Attempting installation...")]).
Proof.
  unfold Install.ensure_pyside2, resolvable. run. now destruct (existsb _ _).
Qed.

Lemma uninstall_run (env : Env) (s : State) :
  Uninstall.uninstall_pyside6 env s
  = if resolvable "PySide6" s then
      match uninstall_prelude env s with
      | (Raise e, s1) => (Raise e, s1)
      | (Ok _, s1) =>
          match Uninstall.pip_uninstall_from_engine_sitepackages env "PySide6" None s1 with
          | (Raise e, s2) => (Raise e, s2)
          | (Ok true, s2) =>
              if resolvable "PySide6" s2
              then (Ok false,
                    logged s2
                      [(Warning,
                        "⚠️ Uninstall command completed but PySide6 still appears to be available.")])
              else (Ok true,
                    logged s2 [(Display, "✅ PySide6 successfully uninstalled and verified.")])
          | (Ok false, s2) =>
              (Ok false, logged s2 [(Error, "❌ Failed to uninstall PySide6.")])
          end
      end
    else (Ok false,
          logged s [(Display,
                     "❌ PySide6 is not installed in the engine's Python environment.")]).
Proof.
  unfold Uninstall.uninstall_pyside6, uninstall_prelude, Uninstall.check_pyside6_installed,
    resolvable. run.
  destruct (existsb (String.eqb "PySide6") (importable s)); cbn [negb]; [|reflexivity].
  destruct (Uninstall.get_pyside6_installation_info env s) as [[info|e] s0];
    [|reflexivity].
  destruct (truthy_str info); cbn [fs importable log spawned];
    (destruct (Uninstall.pip_uninstall_from_engine_sitepackages env "PySide6" None _)
       as [[[|]|e] s2]; [|reflexivity|reflexivity]);
    cbn [fs importable log spawned];
    destruct (existsb (String.eqb "PySide6") (importable s2)); reflexivity.
Qed.

(** C9. The uninstall entry point returns [false] without asking for any
    process when the first probe finds the package absent; it returns [false]
    when pip reports success but the package is still resolvable afterwards;
    and when it returns [true], the package was resolvable at first, pip was
    run on the resolved interpreter and exited with code zero, and the probe
    after it found the package no longer resolvable. *)
Theorem uninstall_true_needs_pip_success_and_absence (env : Env) (s : State) :
  (resolvable "PySide6" s = false ->
   fst (Uninstall.uninstall_pyside6 env s) = Ok false
   /\ spawned (snd (Uninstall.uninstall_pyside6 env s)) = spawned s)
  /\
  (forall s1 s2,
     resolvable "PySide6" s = true ->
     uninstall_prelude env s = (Ok tt, s1) ->
     Uninstall.pip_uninstall_from_engine_sitepackages env "PySide6" None s1 = (Ok true, s2) ->
     resolvable "PySide6" s2 = true ->
     fst (Uninstall.uninstall_pyside6 env s) = Ok false)
  /\
  (fst (Uninstall.uninstall_pyside6 env s) = Ok true ->
   resolvable "PySide6" s = true
   /\ exists s1 s2 py out f i,
        uninstall_prelude env s = (Ok tt, s1)
        /\ Uninstall.pip_uninstall_from_engine_sitepackages env "PySide6" None s1
           = (Ok true, s2)
        /\ fst (get_embedded_python_exe env s1) = Ok (Some py)
        /\ child env (pip_uninstall_cmd env py "PySide6" []) (fs s1) (importable s1)
           = Exited 0 out f i
        /\ importable s2 = i
        /\ resolvable "PySide6" s2 = false).
Proof.
  rewrite uninstall_run. split; [|split].
  - intros ->. split; reflexivity.
  - intros s1 s2 -> -> -> ->. reflexivity.
  - destruct (resolvable "PySide6" s); [|discriminate].
    destruct (uninstall_prelude env s) as [[[]|e] s1]; [|discriminate].
    destruct (Uninstall.pip_uninstall_from_engine_sitepackages env "PySide6" None s1)
      as [[[|]|e] s2] eqn:P; try discriminate.
    destruct (resolvable "PySide6" s2) eqn:R2; [discriminate|].
    intros _. split; [reflexivity|].
    destruct (get_embedded_cases env s1) as [(py & Hpy)|Hn].
    + assert (H : fst (get_embedded_python_exe env s1) = Ok (Some py)) by now rewrite Hpy.
      pose proof P as Q.
      rewrite (pip_uninstall_run _ _ _ _ _ H) in Q. cbv zeta in Q.
      change (extra_of None) with (@nil string) in Q.
      destruct (child env (pip_uninstall_cmd env py "PySide6" []) (fs s1) (importable s1))
        as [|rc out f i] eqn:C; [discriminate|].
      destruct (Z.eqb_spec rc 0) as [->|Hrc]; [|discriminate].
      assert (I2 : importable s2 = i) by (injection Q as <-; reflexivity).
      exists s1, s2, py, out, f, i. repeat split; assumption.
    + assert (H : fst (get_embedded_python_exe env s1) = Ok None) by now rewrite Hn.
      destruct (without_interpreter env "PySide6" None s1 H) as (_ & B & _).
      rewrite B in P. discriminate.
Qed.

Lemma uninstall_true_needs_pip_success_and_absence_witness :
  resolvable "PySide6" (Sample.start Sample.engine_fs ["PySide6"]) = true
  /\ uninstall_prelude (Sample.linux Sample.idle_child)
       (Sample.start Sample.engine_fs ["PySide6"])
     = (Ok tt, snd (uninstall_prelude (Sample.linux Sample.idle_child)
                      (Sample.start Sample.engine_fs ["PySide6"])))
  /\ Uninstall.pip_uninstall_from_engine_sitepackages (Sample.linux Sample.idle_child)
       "PySide6" None
       (snd (uninstall_prelude (Sample.linux Sample.idle_child)
               (Sample.start Sample.engine_fs ["PySide6"])))
     = (Ok true,
        snd (Uninstall.pip_uninstall_from_engine_sitepackages
               (Sample.linux Sample.idle_child) "PySide6" None
               (snd (uninstall_prelude (Sample.linux Sample.idle_child)
                       (Sample.start Sample.engine_fs ["PySide6"])))))
  /\ resolvable "PySide6"
       (snd (Uninstall.pip_uninstall_from_engine_sitepackages
               (Sample.linux Sample.idle_child) "PySide6" None
               (snd (uninstall_prelude (Sample.linux Sample.idle_child)
                       (Sample.start Sample.engine_fs ["PySide6"])))))
     = true
  /\ fst (Uninstall.uninstall_pyside6 (Sample.linux Sample.idle_child)
            (Sample.start Sample.engine_fs ["PySide6"]))
     = Ok false.
Proof.
  assert (A : resolvable "PySide6" (Sample.start Sample.engine_fs ["PySide6"]) = true)
    by reflexivity.
  assert (B : uninstall_prelude (Sample.linux Sample.idle_child)
                (Sample.start Sample.engine_fs ["PySide6"])
              = (Ok tt, snd (uninstall_prelude (Sample.linux Sample.idle_child)
                               (Sample.start Sample.engine_fs ["PySide6"]))))
    by (vm_compute; reflexivity).
  assert (C : Uninstall.pip_uninstall_from_engine_sitepackages
                (Sample.linux Sample.idle_child) "PySide6" None
                (snd (uninstall_prelude (Sample.linux Sample.idle_child)
                        (Sample.start Sample.engine_fs ["PySide6"])))
              = (Ok true,
                 snd (Uninstall.pip_uninstall_from_engine_sitepackages
                        (Sample.linux Sample.idle_child) "PySide6" None
                        (snd (uninstall_prelude (Sample.linux Sample.idle_child)
                                (Sample.start Sample.engine_fs ["PySide6"]))))))
    by (vm_compute; reflexivity).
  assert (D : resolvable "PySide6"
                (snd (Uninstall.pip_uninstall_from_engine_sitepackages
                        (Sample.linux Sample.idle_child) "PySide6" None
                        (snd (uninstall_prelude (Sample.linux Sample.idle_child)
                                (Sample.start Sample.engine_fs ["PySide6"])))))
              = true)
    by (vm_compute; reflexivity).
  split; [exact A|]. split; [exact B|]. split; [exact C|]. split; [exact D|].
  exact (proj1 (proj2 (uninstall_true_needs_pip_success_and_absence
                         (Sample.linux Sample.idle_child)
                         (Sample.start Sample.engine_fs ["PySide6"])))
           _ _ A B C D).
Defined.

(** On the sample tree with a pip that does its work, the uninstall succeeds. *)
Example uninstall_on_sample_tree :
  fst (Uninstall.uninstall_pyside6 (Sample.linux Sample.working_child)
         (Sample.start Sample.engine_fs ["PySide6"])) = Ok true
  /\ fst (Uninstall.uninstall_pyside6 (Sample.linux Sample.working_child)
            (Sample.start Sample.engine_fs [])) = Ok false
  /\ fst (Uninstall.uninstall_pyside6 (Sample.linux Sample.failing_child)
            (Sample.start Sample.engine_fs ["PySide6"])) = Ok false.
Proof. vm_compute. repeat split. Qed.

(** *** Which exceptions are caught *)

(** A handler for every exception leaves none, whatever the body does. *)
Lemma catch_all_returns {A : Type} (m : M (option A)) (s : State) :
  exists o, fst (try_except m (fun _ => Some (ret None)) s) = Ok o.
Proof.
  unfold try_except. destruct (m s) as [[a|e] s']; eexists; reflexivity.
Qed.

(** C2, amended. No exception leaves the locator.  With the interpreter
    resolved, the exit code of a child that ran to its end never makes an
    operation raise: install and uninstall return whether the exit code was
    zero, and after a non-zero exit show-info returns [None], list-all returns
    and the cleanup returns [false].  A child that cannot be started makes
    each of the five operations raise the [OSError] of the spawn: no handler
    of either script catches it. *)
Theorem spawn_failure_is_never_caught
    (env : Env) (s : State) (package : string) (extra : option (list string))
    (py : Path) :
  fst (get_embedded_python_exe env s) = Ok (Some py) ->
  (forall editor_exe s0,
     exists o, fst (_guess_embedded_python_exe_from_editor env editor_exe s0) = Ok o)
  /\ (forall rc out f i,
        (child env (pip_install_cmd env py (extra_of extra)) (fs s) (importable s)
         = Exited rc out f i ->
         fst (Install.pip_install_into_engine_sitepackages env package extra s)
         = Ok (rc =? 0)%Z)
        /\ (child env (pip_uninstall_cmd env py package (extra_of extra))
              (fs s) (importable s) = Exited rc out f i ->
            fst (Uninstall.pip_uninstall_from_engine_sitepackages env package extra s)
            = Ok (rc =? 0)%Z)
        /\ (child env (pip_show_cmd env py) (fs s) (importable s) = Exited rc out f i ->
            rc <> 0%Z ->
            fst (Uninstall.get_pyside6_installation_info env s) = Ok None)
        /\ (child env (pip_list_cmd env py) (fs s) (importable s) = Exited rc out f i ->
            rc <> 0%Z ->
            fst (Uninstall.list_installed_packages env s) = Ok tt)
        /\ (child env (site_query_cmd env py) (fs s) (importable s) = Exited rc out f i ->
            rc <> 0%Z ->
            fst (Uninstall.cleanup_pyside6_cache env s) = Ok false))
  /\ (child env (pip_install_cmd env py (extra_of extra)) (fs s) (importable s)
      = CannotStart ->
      fst (Install.pip_install_into_engine_sitepackages env package extra s)
      = Raise (OSError (str (windows env) py)))
  /\ (child env (pip_uninstall_cmd env py package (extra_of extra))
        (fs s) (importable s) = CannotStart ->
      fst (Uninstall.pip_uninstall_from_engine_sitepackages env package extra s)
      = Raise (OSError (str (windows env) py)))
  /\ (child env (pip_show_cmd env py) (fs s) (importable s) = CannotStart ->
      fst (Uninstall.get_pyside6_installation_info env s)
      = Raise (OSError (str (windows env) py)))
  /\ (child env (pip_list_cmd env py) (fs s) (importable s) = CannotStart ->
      fst (Uninstall.list_installed_packages env s)
      = Raise (OSError (str (windows env) py)))
  /\ (child env (site_query_cmd env py) (fs s) (importable s) = CannotStart ->
      fst (Uninstall.cleanup_pyside6_cache env s)
      = Raise (OSError (str (windows env) py))).
Proof.
  intros H.
  split; [intros exe s0; apply catch_all_returns|].
  assert (Z0 : forall rc : Z, rc <> 0%Z -> (rc =? 0)%Z = false)
    by (intros rc; apply Z.eqb_neq).
  split.
  - intros rc out f i.
    rewrite (pip_install_run _ package extra _ _ H),
      (pip_uninstall_run _ package extra _ _ H),
      (show_info_run _ _ _ H), (list_run _ _ _ H), (cleanup_run _ _ _ H).
    cbv zeta. unfold pip_show_cmd, pip_list_cmd.
    split; [intros ->; now destruct (rc =? 0)%Z|].
    split; [intros ->; now destruct (rc =? 0)%Z|].
    split; [intros -> R; now rewrite (Z0 _ R)|].
    split; [intros -> R; reflexivity|].
    intros -> R. now rewrite (Z0 _ R).
  - rewrite (pip_install_run _ package extra _ _ H),
      (pip_uninstall_run _ package extra _ _ H),
      (show_info_run _ _ _ H), (list_run _ _ _ H), (cleanup_run _ _ _ H).
    cbv zeta. unfold pip_show_cmd, pip_list_cmd.
    repeat split; intros ->; reflexivity.
Qed.

Lemma spawn_failure_is_never_caught_witness :
  fst (get_embedded_python_exe (Sample.linux Sample.failing_child)
         (Sample.start Sample.engine_fs []))
  = Ok (Some (Sample.P Sample.python3))
  /\ fst (Install.pip_install_into_engine_sitepackages
            (Sample.linux Sample.failing_child) "PySide6" None
            (Sample.start Sample.engine_fs []))
     = Ok false
  /\ fst (Uninstall.cleanup_pyside6_cache (Sample.linux Sample.failing_child)
            (Sample.start Sample.engine_fs []))
     = Ok false
  /\ fst (get_embedded_python_exe (Sample.linux Sample.needs_x_bit)
            (Sample.start Sample.unusable_fs []))
     = Ok (Some (Sample.P Sample.python3))
  /\ fst (Uninstall.list_installed_packages (Sample.linux Sample.needs_x_bit)
            (Sample.start Sample.unusable_fs []))
     = Raise (OSError Sample.python3).
Proof.
  split; [vm_compute; reflexivity|].
  destruct (spawn_failure_is_never_caught (Sample.linux Sample.failing_child)
              (Sample.start Sample.engine_fs []) "PySide6" None
              (Sample.P Sample.python3) eq_refl)
    as (_ & T & _).
  destruct (T 1%Z "" Sample.engine_fs []) as (I & _ & _ & _ & C).
  split; [exact (I eq_refl)|].
  split; [refine (C eq_refl _); discriminate|].
  split; [vm_compute; reflexivity|].
  destruct (spawn_failure_is_never_caught (Sample.linux Sample.needs_x_bit)
              (Sample.start Sample.unusable_fs []) "PySide6" None
              (Sample.P Sample.python3) eq_refl)
    as (_ & _ & _ & _ & _ & L & _).
  exact (L eq_refl).
Defined.

(* ================================================================= *)
(** ** Further properties of the two scripts *)

(** *** The locator, step by step *)



(** *** The locator, read backwards *)

Lemma first_existing_inv (f : FS) (cs : list Path) (c : Path) :
  first_existing f cs = Some c -> In c cs /\ exists_ f c = true.
Proof.
  induction cs as [|x cs IH]; simpl; [discriminate|].
  destruct (exists_ f x) eqn:E.
  - intros H; injection H as <-. split; [now left | exact E].
  - intros H. destruct (IH H). split; [now right | assumption].
Qed.

Lemma first_existing_None_inv (f : FS) (cs : list Path) :
  first_existing f cs = None -> none_such (exists_ f) cs.
Proof.
  induction cs as [|x cs IH]; simpl; intros H y Hy; [contradiction|].
  destruct (exists_ f x) eqn:E; [discriminate|].
  destruct Hy as [<-|Hy]; [exact E | now apply IH].
Qed.

Lemma first_executable_inv (f : FS) (hits : list Path) (h : Path) :
  first_executable f hits = Some h ->
  In h hits /\ is_file f h = true /\ os_access_X f h = true.
Proof.
  induction hits as [|x hits IH]; simpl; [discriminate|].
  destruct (is_file f x && os_access_X f x) eqn:E.
  - intros H; injection H as <-. apply andb_true_iff in E. split; [now left | exact E].
  - intros H. destruct (IH H) as (A & B). split; [now right | exact B].
Qed.

(** X1. Whatever the locator returns is either one of the platform's
    candidates, and exists, or, when no candidate exists, a hit of the
    recursive search that is a regular file and executable.  A candidate is
    taken on existence alone: it need be neither a regular file nor
    executable. *)
Theorem locator_result_is_candidate_or_usable_hit
    (env : Env) (editor_exe : Path) (s : State) (p : Path) :
  fst (_guess_embedded_python_exe_from_editor env editor_exe s) = Ok (Some p) ->
  exists engine_dir,
    parents editor_exe 2 = Ok engine_dir
    /\ let thirdparty := engine_dir // "Binaries" // "ThirdParty" in
       (In p (candidates env thirdparty) /\ exists_ (fs s) p = true)
       \/ (none_such (exists_ (fs s)) (candidates env thirdparty)
           /\ In p (glob_glob (windows env) (fs s)
                      (thirdparty // "Python*" // "**" // "python*"))
           /\ is_file (fs s) p = true /\ os_access_X (fs s) p = true).
Proof.
  rewrite guess_located. cbn [fst]. unfold located.
  destruct (parents editor_exe 2) as [engine|e]; [|discriminate].
  intros H. exists engine. split; [reflexivity|]. cbv zeta.
  destruct (first_existing _ _) as [c|] eqn:E.
  - injection H as <-. left. now apply first_existing_inv.
  - right. split; [now apply first_existing_None_inv|].
    injection H as H. now apply first_executable_inv.
Qed.

Lemma locator_result_is_candidate_or_usable_hit_witness :
  fst (_guess_embedded_python_exe_from_editor (Sample.linux Sample.no_child)
         (Sample.P "/ue/Engine/Binaries/Linux/UnrealEditor")
         (Sample.start Sample.unusable_fs []))
  = Ok (Some (Sample.P Sample.python3))
  /\ os_access_X Sample.unusable_fs (Sample.P Sample.python3) = false
  /\ exists engine_dir,
       parents (Sample.P "/ue/Engine/Binaries/Linux/UnrealEditor") 2 = Ok engine_dir
       /\ ((In (Sample.P Sample.python3)
              (candidates (Sample.linux Sample.no_child)
                 (engine_dir // "Binaries" // "ThirdParty"))
            /\ exists_ Sample.unusable_fs (Sample.P Sample.python3) = true)
           \/ (none_such (exists_ Sample.unusable_fs)
                 (candidates (Sample.linux Sample.no_child)
                    (engine_dir // "Binaries" // "ThirdParty"))
               /\ In (Sample.P Sample.python3)
                    (glob_glob false Sample.unusable_fs
                       (engine_dir // "Binaries" // "ThirdParty"
                          // "Python*" // "**" // "python*"))
               /\ is_file Sample.unusable_fs (Sample.P Sample.python3) = true
               /\ os_access_X Sample.unusable_fs (Sample.P Sample.python3) = true)).
Proof.
  split; [reflexivity|]. split; [reflexivity|].
  exact (locator_result_is_candidate_or_usable_hit (Sample.linux Sample.no_child)
           (Sample.P "/ue/Engine/Binaries/Linux/UnrealEditor")
           (Sample.start Sample.unusable_fs []) (Sample.P Sample.python3) eq_refl).
Defined.

(** X2. The locator never leaves [<engine-root>/Binaries/ThirdParty]: when
    the engine root's path holds no wildcard character, whatever is returned
    has the anchor of [ThirdParty] and the names of [ThirdParty] as the first
    of its names (on Windows up to letter case, as the search folds case). *)
Theorem locator_result_is_below_thirdparty
    (env : Env) (editor_exe engine_dir : Path) (s : State) (p : Path) :
  parents editor_exe 2 = Ok engine_dir ->
  Forall (fun l => wildcard_free l = true) (names engine_dir) ->
  fst (_guess_embedded_python_exe_from_editor env editor_exe s) = Ok (Some p) ->
  let thirdparty := engine_dir // "Binaries" // "ThirdParty" in
  anchor p = anchor thirdparty
  /\ names_prefix (map (normcase (windows env)) (names thirdparty))
                  (map (normcase (windows env)) (names p)) = true.
Proof.
  intros He Hw. rewrite guess_located. cbn [fst]. unfold located. rewrite He.
  cbv zeta. destruct (first_existing _ _) as [c|] eqn:E.
  - intros H; injection H as <-. apply first_existing_inv in E as [E _].
    unfold candidates in E.
    destruct (startswith (platform env) "win");
      [| destruct (String.eqb (platform env) "darwin")];
      simpl in E; repeat (destruct E as [<-|E]; [|try contradiction]);
      (split; [reflexivity|]); unfold div; cbn [names anchor];
      match goal with
      | |- names_prefix (map _ ?l) _ = true => generalize l; intros base
      end;
      repeat rewrite <- app_assoc; rewrite map_app; apply names_prefix_app.
  - intros H; injection H as H. apply first_executable_inv in H as [H _].
    apply fallback_hits_below_thirdparty in H.
    + unfold beneath in H. apply andb_true_iff in H as [Ha Hn].
      apply String.eqb_eq in Ha. split; [now symmetry|].
      now apply names_prefix_map.
    + unfold div; cbn [names]. apply Forall_app. split.
      * apply Forall_app. split; [exact Hw | now constructor].
      * now constructor.
Qed.

Lemma locator_result_is_below_thirdparty_witness :
  parents (Sample.P "/ue/Engine/Binaries/Linux/UnrealEditor") 2
  = Ok (Sample.P "/ue/Engine")
  /\ Forall (fun l => wildcard_free l = true) (names (Sample.P "/ue/Engine"))
  /\ fst (_guess_embedded_python_exe_from_editor (Sample.linux Sample.no_child)
            (Sample.P "/ue/Engine/Binaries/Linux/UnrealEditor")
            (Sample.start Sample.fallback_fs []))
     = Ok (Some (Sample.P "/ue/Engine/Binaries/ThirdParty/Python3/python"))
  /\ names_prefix
       (map (normcase false) (names (Sample.P "/ue/Engine/Binaries/ThirdParty")))
       (map (normcase false)
            (names (Sample.P "/ue/Engine/Binaries/ThirdParty/Python3/python")))
     = true.
Proof.
  assert (W : Forall (fun l => wildcard_free l = true) (names (Sample.P "/ue/Engine")))
    by (repeat constructor).
  split; [reflexivity|]. split; [exact W|]. split; [reflexivity|].
  exact (proj2 (locator_result_is_below_thirdparty (Sample.linux Sample.no_child)
                  (Sample.P "/ue/Engine/Binaries/Linux/UnrealEditor")
                  (Sample.P "/ue/Engine") (Sample.start Sample.fallback_fs [])
                  (Sample.P "/ue/Engine/Binaries/ThirdParty/Python3/python")
                  eq_refl W eq_refl)).
Defined.

(** *** Resolving the interpreter *)

(** X3. A path that [get_embedded_python_exe] returns exists in the file
    system, and then nothing at all has changed, the log included; when it
    returns [None], one warning has been logged and nothing else has changed.
    Neither way is a process asked for. *)
Theorem resolved_interpreter_exists_else_one_warning (env : Env) (s : State) :
  (forall py,
     fst (get_embedded_python_exe env s) = Ok (Some py) ->
     exists_ (fs s) py = true /\ snd (get_embedded_python_exe env s) = s)
  /\ (fst (get_embedded_python_exe env s) = Ok None ->
      snd (get_embedded_python_exe env s)
      = mkState (fs s) (importable s)
          (log s ++ [(Warning, "Could not resolve embedded Python automatically.")])
          (spawned s)).
Proof.
  rewrite get_embedded_located.
  destruct (located env (get_unreal_editor_exe env) (fs s)) as [p|] eqn:E; cbn [fst snd].
  - split; [|discriminate]. intros py Hpy. injection Hpy as <-.
    split; [now apply (located_exists _ _ _ _ E) | reflexivity].
  - split; [discriminate|]. reflexivity.
Qed.

Lemma resolved_interpreter_exists_else_one_warning_witness :
  fst (get_embedded_python_exe (Sample.linux Sample.no_child)
         (Sample.start Sample.engine_fs []))
  = Ok (Some (Sample.P Sample.python3))
  /\ exists_ Sample.engine_fs (Sample.P Sample.python3) = true
  /\ snd (get_embedded_python_exe (Sample.linux Sample.no_child)
            (Sample.start Sample.engine_fs []))
     = Sample.start Sample.engine_fs []
  /\ fst (get_embedded_python_exe (Sample.linux Sample.no_child)
            (Sample.start Sample.bracket_fs ["PySide6"]))
     = Ok None
  /\ snd (get_embedded_python_exe (Sample.linux Sample.no_child)
            (Sample.start Sample.bracket_fs ["PySide6"]))
     = mkState Sample.bracket_fs ["PySide6"]
         [(Warning, "Could not resolve embedded Python automatically.")] [].
Proof.
  split; [vm_compute; reflexivity|].
  destruct (proj1 (resolved_interpreter_exists_else_one_warning
                     (Sample.linux Sample.no_child) (Sample.start Sample.engine_fs []))
              (Sample.P Sample.python3) eq_refl) as [A B].
  split; [exact A|]. split; [exact B|].
  split; [vm_compute; reflexivity|].
  exact (proj2 (resolved_interpreter_exists_else_one_warning
                  (Sample.linux Sample.no_child)
                  (Sample.start Sample.bracket_fs ["PySide6"])) eq_refl).
Defined.

Lemma get_embedded_logged (env : Env) (s : State) (l : list (level * string)) :
  fst (get_embedded_python_exe env (logged s l)) = fst (get_embedded_python_exe env s).
Proof. rewrite !get_embedded_located. cbn [fs logged]. now destruct (located _ _ _). Qed.

(** *** Show-info and list-all *)

(** X4. With the interpreter resolved and the [pip show] child run to its
    end, show-info returns the child's output when the exit code is zero and
    [None] otherwise, and in both cases logs nothing: a failure of [pip show] is
    silent.  One process was asked for, [<py> -m pip show PySide6]. *)
Theorem show_info_is_silent
    (env : Env) (s : State) (py : Path) (rc : Z) (out : string) (f : FS)
    (i : list string) :
  fst (get_embedded_python_exe env s) = Ok (Some py) ->
  child env (pip_show_cmd env py) (fs s) (importable s) = Exited rc out f i ->
  Uninstall.get_pyside6_installation_info env s
  = (Ok (if (rc =? 0)%Z then Some out else None),
     mkState f i (log s) (spawned s ++ [pip_show_cmd env py])).
Proof.
  intros H C. rewrite (show_info_run _ _ _ H). cbv zeta.
  change [str (windows env) py; "-m"; "pip"; "show"; "PySide6"]
    with (pip_show_cmd env py).
  rewrite C. now destruct (rc =? 0)%Z.
Qed.

Lemma show_info_is_silent_witness :
  fst (get_embedded_python_exe (Sample.linux Sample.failing_child)
         (Sample.start Sample.engine_fs ["PySide6"]))
  = Ok (Some (Sample.P Sample.python3))
  /\ child (Sample.linux Sample.failing_child)
       (pip_show_cmd (Sample.linux Sample.failing_child) (Sample.P Sample.python3))
       Sample.engine_fs ["PySide6"]
     = Exited 1 "" Sample.engine_fs ["PySide6"]
  /\ Uninstall.get_pyside6_installation_info (Sample.linux Sample.failing_child)
       (Sample.start Sample.engine_fs ["PySide6"])
     = (Ok None,
        mkState Sample.engine_fs ["PySide6"] []
          [pip_show_cmd (Sample.linux Sample.failing_child) (Sample.P Sample.python3)]).
Proof.
  split; [reflexivity|]. split; [reflexivity|].
  exact (show_info_is_silent (Sample.linux Sample.failing_child)
           (Sample.start Sample.engine_fs ["PySide6"]) (Sample.P Sample.python3)
           1%Z "" Sample.engine_fs ["PySide6"] eq_refl eq_refl).
Defined.

(** X5. With the interpreter resolved and the [pip list] child run to its
    end, list-all returns nothing and has logged two lines: its heading, and
    then the child's output when the exit code is zero, an error otherwise.  One
    process was asked for, [<py> -m pip list]. *)
Theorem list_all_logs_output_or_error
    (env : Env) (s : State) (py : Path) (rc : Z) (out : string) (f : FS)
    (i : list string) :
  fst (get_embedded_python_exe env s) = Ok (Some py) ->
  child env (pip_list_cmd env py) (fs s) (importable s) = Exited rc out f i ->
  Uninstall.list_installed_packages env s
  = (Ok tt,
     mkState f i
       (log s ++ [(Display, "📦 Packages installed in engine Python:");
                  if (rc =? 0)%Z then (Display, out)
                  else (Error,
                        ("Failed to list packages: "
                           ++ exc_text env (CalledProcessError rc (pip_list_cmd env py)))
                        %string)])
       (spawned s ++ [pip_list_cmd env py])).
Proof.
  intros H C. rewrite (list_run _ _ _ H). cbv zeta.
  change [str (windows env) py; "-m"; "pip"; "list"] with (pip_list_cmd env py).
  rewrite C. unfold logged, after_child, asked. cbn [fs importable log spawned].
  now rewrite <- app_assoc.
Qed.

Lemma list_all_logs_output_or_error_witness :
  fst (get_embedded_python_exe (Sample.linux Sample.failing_child)
         (Sample.start Sample.engine_fs []))
  = Ok (Some (Sample.P Sample.python3))
  /\ child (Sample.linux Sample.failing_child)
       (pip_list_cmd (Sample.linux Sample.failing_child) (Sample.P Sample.python3))
       Sample.engine_fs []
     = Exited 1 "" Sample.engine_fs []
  /\ map fst (log (snd (Uninstall.list_installed_packages
                          (Sample.linux Sample.failing_child)
                          (Sample.start Sample.engine_fs []))))
     = [Display; Error].
Proof.
  split; [reflexivity|]. split; [reflexivity|].
  rewrite (list_all_logs_output_or_error (Sample.linux Sample.failing_child)
             (Sample.start Sample.engine_fs []) (Sample.P Sample.python3)
             1%Z "" Sample.engine_fs [] eq_refl eq_refl).
  reflexivity.
Defined.

(** *** The install entry point *)

(** X6. [ensure_pyside2] returns [true] exactly when the package is already
    resolvable, or else the interpreter is resolved and the [pip install] child
    exits with code zero.  The result after an install is pip's word alone:
    what the child leaves importable plays no part, the package is not probed
    again. *)
Theorem ensure_true_iff_present_or_pip_succeeds (env : Env) (s : State) :
  fst (Install.ensure_pyside2 env s) = Ok true <->
  resolvable "PySide6" s = true
  \/ (exists py out f i,
        fst (get_embedded_python_exe env s) = Ok (Some py)
        /\ child env (pip_install_cmd env py []) (fs s) (importable s)
           = Exited 0 out f i).
Proof.
  rewrite ensure_run. destruct (resolvable "PySide6" s) eqn:R.
  - split; [now left | reflexivity].
  - set (s0 := logged s [(Warning, "PySide6 not found. Attempting installation...")]).
    destruct (get_embedded_cases env s0) as [(py & Hpy)|Hn].
    + assert (H0 : fst (get_embedded_python_exe env s0) = Ok (Some py)) by now rewrite Hpy.
      assert (H : fst (get_embedded_python_exe env s) = Ok (Some py))
        by (rewrite <- H0; symmetry; apply get_embedded_logged).
      rewrite (pip_install_run _ _ _ _ _ H0). cbv zeta.
      change (extra_of None) with (@nil string). change (fs s0) with (fs s).
      change (importable s0) with (importable s).
      destruct (child env (pip_install_cmd env py []) (fs s) (importable s))
        as [|rc out f i] eqn:C.
      * split; [discriminate|]. intros [?|(py' & out & f & i & E & C')]; [discriminate|].
        rewrite H in E. injection E as <-. congruence.
      * destruct (Z.eqb_spec rc 0) as [->|Hrc]; cbn [fst].
        -- split; [|reflexivity]. intros _. right. now exists py, out, f, i.
        -- split; [discriminate|].
           intros [?|(py' & out' & f' & i' & E & C')]; [discriminate|].
           rewrite H in E. injection E as <-. rewrite C in C'.
           injection C' as -> _ _ _. now contradiction Hrc.
    + assert (H0 : fst (get_embedded_python_exe env s0) = Ok None) by now rewrite Hn.
      destruct (without_interpreter env "PySide6" None s0 H0) as (A & _).
      rewrite A. cbn [fst]. split; [discriminate|].
      intros [?|(py & out & f & i & E & _)]; [discriminate|].
      rewrite <- (get_embedded_logged env s
                    [(Warning, "PySide6 not found. Attempting installation...")]) in E.
      fold s0 in E. rewrite H0 in E. discriminate.
Qed.

Lemma ensure_true_iff_present_or_pip_succeeds_witness :
  resolvable "PySide6" (Sample.start Sample.engine_fs []) = false
  /\ fst (Install.ensure_pyside2 (Sample.linux Sample.idle_child)
            (Sample.start Sample.engine_fs [])) = Ok true
  /\ resolvable "PySide6"
       (snd (Install.ensure_pyside2 (Sample.linux Sample.idle_child)
               (Sample.start Sample.engine_fs []))) = false.
Proof.
  split; [reflexivity|]. split; [|vm_compute; reflexivity].
  apply (ensure_true_iff_present_or_pip_succeeds (Sample.linux Sample.idle_child)
           (Sample.start Sample.engine_fs [])).
  right. exists (Sample.P Sample.python3), "", Sample.engine_fs, [].
  split; reflexivity.
Defined.

(** *** The two helpers *)

Lemma open_folder_run (env : Env) (s : State) (py : Path) :
  fst (get_embedded_python_exe env s) = Ok (Some py) ->
  let folder := str (windows env) (parent py) in
  let cmd := [opener env; folder] in
  let s1 := asked (logged s [(Display, ("Python folder: " ++ folder)%string);
                             (Display, ("Opening: " ++ folder)%string)]) cmd in
  open_python_folder_in_explorer env s
  = match child env cmd (fs s) (importable s) with
    | CannotStart => (Raise (OSError (opener env)), s1)
    | Exited _ _ _ _ => (Ok tt, s1)
    end.
Proof.
  intros H. apply get_embedded_Some in H. cbv zeta.
  unfold open_python_folder_in_explorer, opener.
  rewrite (bind_Ok _ _ _ _ _ H).
  destruct (startswith (platform env) "win");
    [|destruct (String.eqb (platform env) "darwin")];
    run; unfold logged, asked; cbn [fs importable log spawned];
    rewrite <- app_assoc; destruct (child _ _ _ _); reflexivity.
Qed.

(** X7. With the interpreter resolved, the folder helper asks for exactly one
    process: the platform's opener ([explorer], [open] or [xdg-open]) on the
    directory that holds the interpreter.  It does not wait for it, so the file
    system and the importable modules are as before.  It returns nothing,
    unless the opener cannot be started: then the [OSError] of the spawn leaves
    the helper, which has no handler at all. *)
Theorem folder_helper_spawns_one_opener (env : Env) (s : State) (py : Path) :
  fst (get_embedded_python_exe env s) = Ok (Some py) ->
  let cmd := [opener env; str (windows env) (parent py)] in
  let r := open_python_folder_in_explorer env s in
  spawned (snd r) = (spawned s ++ [cmd])%list
  /\ fs (snd r) = fs s
  /\ importable (snd r) = importable s
  /\ fst r = match child env cmd (fs s) (importable s) with
             | CannotStart => Raise (OSError (opener env))
             | Exited _ _ _ _ => Ok tt
             end.
Proof.
  intros H. cbv zeta. rewrite (open_folder_run _ _ _ H). cbv zeta.
  destruct (child _ _ _ _); repeat split; reflexivity.
Qed.

Lemma folder_helper_spawns_one_opener_witness :
  fst (get_embedded_python_exe (Sample.linux Sample.no_child)
         (Sample.start Sample.engine_fs []))
  = Ok (Some (Sample.P Sample.python3))
  /\ spawned (snd (open_python_folder_in_explorer (Sample.linux Sample.no_child)
                     (Sample.start Sample.engine_fs [])))
     = [["xdg-open"; "/ue/Engine/Binaries/ThirdParty/Python3/Linux/bin"]]
  /\ fst (open_python_folder_in_explorer (Sample.linux Sample.no_child)
            (Sample.start Sample.engine_fs []))
     = Raise (OSError "xdg-open").
Proof.
  split; [reflexivity|].
  destruct (folder_helper_spawns_one_opener (Sample.linux Sample.no_child)
              (Sample.start Sample.engine_fs []) (Sample.P Sample.python3) eq_refl)
    as (A & _ & _ & B).
  split; [exact A | exact B].
Defined.

(** X8. With the interpreter resolved, the terminal helper asks for a process
    on Windows only, and there for [cmd.exe] alone; on every other platform it
    logs the two folder lines and a warning, returns nothing and changes
    nothing else. *)
Theorem terminal_helper_is_windows_only (env : Env) (s : State) (py : Path) :
  fst (get_embedded_python_exe env s) = Ok (Some py) ->
  let folder := str (windows env) (parent py) in
  if windows env
  then spawned (snd (open_cmd_at_python env s)) = (spawned s ++ [["cmd.exe"]])%list
       /\ fs (snd (open_cmd_at_python env s)) = fs s
  else open_cmd_at_python env s
       = (Ok tt,
          mkState (fs s) (importable s)
            (log s ++ [(Display, ("Python folder: " ++ folder)%string);
                       (Display, ("Opening CMD at: " ++ folder)%string);
                       (Warning, "CMD helper is Windows-only.")])
            (spawned s)).
Proof.
  intros H. apply get_embedded_Some in H. cbv zeta.
  unfold open_cmd_at_python, windows. rewrite (bind_Ok _ _ _ _ _ H).
  destruct (startswith (platform env) "win"); run.
  - destruct (child _ _ _ _); split; reflexivity.
  - now rewrite <- !app_assoc.
Qed.

Lemma terminal_helper_is_windows_only_witness :
  fst (get_embedded_python_exe (Sample.linux Sample.working_child)
         (Sample.start Sample.engine_fs []))
  = Ok (Some (Sample.P Sample.python3))
  /\ fst (open_cmd_at_python (Sample.linux Sample.working_child)
            (Sample.start Sample.engine_fs [])) = Ok tt
  /\ spawned (snd (open_cmd_at_python (Sample.linux Sample.working_child)
                     (Sample.start Sample.engine_fs []))) = [].
Proof.
  split; [reflexivity|].
  pose proof (terminal_helper_is_windows_only (Sample.linux Sample.working_child)
                (Sample.start Sample.engine_fs []) (Sample.P Sample.python3) eq_refl) as T.
  cbv zeta in T. change (windows (Sample.linux Sample.working_child)) with false in T.
  cbv iota in T. rewrite T. split; reflexivity.
Defined.

(** *** More on the cleanup *)

Lemma remove_all_app (env : Env) (a b : list Path) (s : State) :
  Uninstall.remove_all env (a ++ b) s
  = Uninstall.remove_all env b (snd (Uninstall.remove_all env a s)).
Proof.
  revert s. induction a as [|p a IH]; intros s; [reflexivity|].
  destruct (remove_one_spec env p s) as (s1 & entry & R1 & _).
  cbn [app Uninstall.remove_all]. rewrite !(bind_Ok _ _ _ _ _ R1). apply IH.
Qed.

Lemma remove_all_cons (env : Env) (p : Path) (rest : list Path) (s : State) :
  Uninstall.remove_all env (p :: rest) s
  = Uninstall.remove_all env rest (snd (Uninstall.remove_one env p s)).
Proof.
  destruct (remove_one_spec env p s) as (s1 & entry & R1 & _).
  cbn [Uninstall.remove_all]. now rewrite (bind_Ok _ _ _ _ _ R1), R1.
Qed.

Lemma remove_all_keeps_log (env : Env) (paths : list Path) (s : State)
    (x : level * string) :
  In x (log s) -> In x (log (snd (Uninstall.remove_all env paths s))).
Proof.
  destruct (remove_all_spec env paths s) as (s' & R & (l & L) & _).
  rewrite R. cbn [snd]. rewrite L. intros H. apply in_or_app. now left.
Qed.

Lemma remove_all_shrinks (env : Env) (paths : list Path) (s : State) :
  incl (fs (snd (Uninstall.remove_all env paths s))) (fs s).
Proof.
  destruct (remove_all_spec env paths s) as (s' & R & _ & _ & (_ & _ & C & _) & _).
  now rewrite R.
Qed.

(** A path that is not there gets its warning. *)
Lemma remove_one_absent (env : Env) (p : Path) (s : State) :
  exists_ (fs s) p = false ->
  exists e, In (Warning, could_not_remove env p e)
               (log (snd (Uninstall.remove_one env p s))).
Proof.
  unfold exists_. destruct (stat (fs s) p) as [n|] eqn:St; [discriminate|]. intros _.
  unfold Uninstall.remove_one. run. unfold is_dir at 1. rewrite St.
  unfold unlink. run. rewrite St. cbn [snd log].
  eexists. apply in_or_app. right. left. reflexivity.
Qed.

(** A path that is listed twice has a warning in the end, whether or not it
    could be removed. *)
Lemma listed_twice_is_warned (env : Env) (a b c : list Path) (h : Path) (s : State) :
  exists e, In (Warning, could_not_remove env h e)
               (log (snd (Uninstall.remove_all env (a ++ h :: b ++ h :: c) s))).
Proof.
  rewrite remove_all_app, remove_all_cons.
  set (sa := snd (Uninstall.remove_all env a s)).
  destruct (remove_one_spec env h sa) as (s1 & entry & R1 & L1 & _ & _ & W1).
  rewrite R1. cbn [snd].
  destruct (exists_ (fs s1) h) eqn:E1.
  - destruct (W1 eq_refl) as (e & ->). exists e. apply remove_all_keeps_log.
    rewrite L1. apply in_or_app. right. right. now left.
  - rewrite remove_all_app, remove_all_cons.
    set (sb := snd (Uninstall.remove_all env b s1)).
    assert (Eb : exists_ (fs sb) h = false)
      by (apply (exists_incl (fs s1)); [apply remove_all_shrinks | exact E1]).
    destruct (remove_one_absent env h sb Eb) as (e & He).
    exists e. now apply remove_all_keeps_log.
Qed.

Lemma in_two_segments {A : Type} (h : A) (pre X mid Y post : list A) :
  In h X -> In h Y ->
  exists a b c, (pre ++ X ++ mid ++ Y ++ post = a ++ h :: b ++ h :: c)%list.
Proof.
  intros HX HY. apply in_split in HX as (x1 & x2 & ->).
  apply in_split in HY as (y1 & y2 & ->).
  exists (pre ++ x1)%list, (x2 ++ mid ++ y1)%list, (y2 ++ post)%list.
  repeat (rewrite <- app_assoc; cbn [app]). reflexivity.
Qed.

Lemma cleanup_warns_if_listed_twice
    (env : Env) (s : State) (py : Path) (out : string) (f : FS) (i : list string)
    (a b c : list Path) (h : Path) :
  fst (get_embedded_python_exe env s) = Ok (Some py) ->
  child env (site_query_cmd env py) (fs s) (importable s) = Exited 0 out f i ->
  Uninstall.pyside_paths env f (PurePath (windows env) (strip out))
  = (a ++ h :: b ++ h :: c)%list ->
  exists e, In (Warning, could_not_remove env h e)
               (log (snd (Uninstall.cleanup_pyside6_cache env s))).
Proof.
  intros H C E. rewrite (cleanup_run _ _ _ H). cbv zeta. rewrite C. cbn [Z.eqb].
  rewrite E. destruct (a ++ h :: b ++ h :: c)%list as [|x l] eqn:L.
  - now destruct a.
  - cbn [snd]. rewrite <- L. apply listed_twice_is_warned.
Qed.

(** X9. An entry of site-packages whose name matches [*pyside6*] and also one
    of the other two patterns is collected twice.  The cleanup then tries it
    twice, and its log ends up with a [Could not remove] warning for it in
    every case: also when the first try removed it. *)
Theorem matching_two_patterns_gets_a_warning
    (env : Env) (s : State) (py : Path) (out : string) (f : FS) (i : list string)
    (pattern : string) (h : Path) :
  fst (get_embedded_python_exe env s) = Ok (Some py) ->
  child env (site_query_cmd env py) (fs s) (importable s) = Exited 0 out f i ->
  pattern = "PySide6*" \/ pattern = "shiboken6*" ->
  In h (Path_glob (windows env) f (PurePath (windows env) (strip out)) pattern) ->
  In h (Path_glob (windows env) f (PurePath (windows env) (strip out)) "*pyside6*") ->
  exists e, In (Warning, could_not_remove env h e)
               (log (snd (Uninstall.cleanup_pyside6_cache env s))).
Proof.
  intros H C Hp H1 H3.
  set (d := PurePath (windows env) (strip out)) in *.
  assert (E : exists a b c, Uninstall.pyside_paths env f d = (a ++ h :: b ++ h :: c)%list).
  { unfold Uninstall.pyside_paths, Uninstall.patterns. cbn [flat_map].
    destruct Hp as [->| ->].
    - apply (in_two_segments h []); assumption.
    - destruct (in_two_segments h (Path_glob (windows env) f d "PySide6*")
                  (Path_glob (windows env) f d "shiboken6*") []
                  (Path_glob (windows env) f d "*pyside6*") [] H1 H3)
        as (a & b & c & E).
      exists a, b, c. exact E. }
  destruct E as (a & b & c & E).
  exact (cleanup_warns_if_listed_twice env s py out f i a b c h H C E).
Qed.

Lemma matching_two_patterns_gets_a_warning_witness :
  fst (get_embedded_python_exe (Sample.linux Sample.working_child)
         (Sample.start Sample.twice_fs []))
  = Ok (Some (Sample.P Sample.python3))
  /\ In (Sample.P (Sample.site_packages ++ "/shiboken6_pyside6.pth"))
        (Path_glob false Sample.twice_fs (Sample.P Sample.site_packages) "shiboken6*")
  /\ In (Sample.P (Sample.site_packages ++ "/shiboken6_pyside6.pth"))
        (Path_glob false Sample.twice_fs (Sample.P Sample.site_packages) "*pyside6*")
  /\ exists_ (fs (snd (Uninstall.cleanup_pyside6_cache
                         (Sample.linux Sample.working_child)
                         (Sample.start Sample.twice_fs []))))
       (Sample.P (Sample.site_packages ++ "/shiboken6_pyside6.pth")) = false
  /\ exists e,
       In (Warning,
           could_not_remove (Sample.linux Sample.working_child)
             (Sample.P (Sample.site_packages ++ "/shiboken6_pyside6.pth")) e)
          (log (snd (Uninstall.cleanup_pyside6_cache
                       (Sample.linux Sample.working_child)
                       (Sample.start Sample.twice_fs [])))).
Proof.
  assert (A : In (Sample.P (Sample.site_packages ++ "/shiboken6_pyside6.pth"))
                (Path_glob false Sample.twice_fs (Sample.P Sample.site_packages)
                   "shiboken6*")) by (left; reflexivity).
  assert (B : In (Sample.P (Sample.site_packages ++ "/shiboken6_pyside6.pth"))
                (Path_glob false Sample.twice_fs (Sample.P Sample.site_packages)
                   "*pyside6*")) by (left; reflexivity).
  split; [reflexivity|]. split; [exact A|]. split; [exact B|].
  split; [vm_compute; reflexivity|].
  exact (matching_two_patterns_gets_a_warning (Sample.linux Sample.working_child)
           (Sample.start Sample.twice_fs []) (Sample.P Sample.python3)
           (Sample.site_packages ++ Sample.newline) Sample.twice_fs []
           "shiboken6*" _ eq_refl eq_refl (or_intror eq_refl) A B).
Defined.

Lemma glob_match_leading_star (pat nm : list ascii) :
  glob_match pat Plain nm = true -> glob_match ("*"%char :: pat) Plain nm = true.
Proof. intros H. destruct nm; simpl; now rewrite H. Qed.

(** With case folded, what matches [PySide6*] matches [*pyside6*] as well. *)
Lemma fnmatch_PySide6_twice (nm : string) :
  fnmatch true "PySide6*" nm = true -> fnmatch true "*pyside6*" nm = true.
Proof.
  unfold fnmatch.
  change (list_ascii_of_string (normcase true "*pyside6*"))
    with ("*"%char :: list_ascii_of_string (normcase true "PySide6*")).
  apply glob_match_leading_star.
Qed.

(** X10. On Windows, where the patterns are matched without regard to letter
    case, every entry that [PySide6*] collects is collected by [*pyside6*]
    again: the cleanup logs a [Could not remove] warning for each of them, also
    for those it has removed. *)
Theorem on_windows_every_PySide6_entry_gets_a_warning
    (env : Env) (s : State) (py : Path) (out : string) (f : FS) (i : list string)
    (h : Path) :
  windows env = true ->
  fst (get_embedded_python_exe env s) = Ok (Some py) ->
  child env (site_query_cmd env py) (fs s) (importable s) = Exited 0 out f i ->
  In h (Path_glob true f (PurePath true (strip out)) "PySide6*") ->
  exists e, In (Warning, could_not_remove env h e)
               (log (snd (Uninstall.cleanup_pyside6_cache env s))).
Proof.
  intros W H C H1.
  assert (H3 : In h (Path_glob true f (PurePath true (strip out)) "*pyside6*")).
  { unfold Path_glob in *. apply in_map_iff in H1 as (e & <- & He).
    apply filter_In in He as [He Hm]. apply andb_true_iff in Hm as [Hc Hm].
    apply in_map, filter_In. split; [exact He|].
    now rewrite Hc, (fnmatch_PySide6_twice _ Hm). }
  assert (G1 : In h (Path_glob (windows env) f (PurePath (windows env) (strip out))
                       "PySide6*")) by (rewrite W; exact H1).
  assert (G3 : In h (Path_glob (windows env) f (PurePath (windows env) (strip out))
                       "*pyside6*")) by (rewrite W; exact H3).
  destruct (in_two_segments h [] _
              (Path_glob (windows env) f (PurePath (windows env) (strip out))
                 "shiboken6*") _ [] G1 G3)
    as (a & b & c & E).
  apply (cleanup_warns_if_listed_twice env s py out f i a b c h H C).
  unfold Uninstall.pyside_paths, Uninstall.patterns. cbn [flat_map]. exact E.
Qed.

Lemma on_windows_every_PySide6_entry_gets_a_warning_witness :
  windows (Sample.win32 Sample.windows_child) = true
  /\ fst (get_embedded_python_exe (Sample.win32 Sample.windows_child)
            (Sample.start Sample.windows_fs []))
     = Ok (Some (PurePath true Sample.windows_python))
  /\ In (PurePath true (Sample.windows_site ++ "\PySide6"))
        (Path_glob true Sample.windows_fs (PurePath true Sample.windows_site) "PySide6*")
  /\ exists_ (fs (snd (Uninstall.cleanup_pyside6_cache
                         (Sample.win32 Sample.windows_child)
                         (Sample.start Sample.windows_fs []))))
       (PurePath true (Sample.windows_site ++ "\PySide6")) = false
  /\ exists e,
       In (Warning,
           could_not_remove (Sample.win32 Sample.windows_child)
             (PurePath true (Sample.windows_site ++ "\PySide6")) e)
          (log (snd (Uninstall.cleanup_pyside6_cache
                       (Sample.win32 Sample.windows_child)
                       (Sample.start Sample.windows_fs [])))).
Proof.
  assert (A : In (PurePath true (Sample.windows_site ++ "\PySide6"))
                (Path_glob true Sample.windows_fs (PurePath true Sample.windows_site)
                   "PySide6*")) by (left; reflexivity).
  split; [reflexivity|]. split; [reflexivity|]. split; [exact A|].
  split; [vm_compute; reflexivity|].
  exact (on_windows_every_PySide6_entry_gets_a_warning
           (Sample.win32 Sample.windows_child) (Sample.start Sample.windows_fs [])
           (PurePath true Sample.windows_python)
           (Sample.windows_site ++ Sample.newline) Sample.windows_fs [] _
           eq_refl eq_refl eq_refl A).
Defined.

(** X11. With the interpreter resolved, the cleanup asks for exactly one
    process, the site query, whatever comes of it: the removals are done by the
    script itself and ask for none. *)
Theorem cleanup_spawns_the_query_only (env : Env) (s : State) (py : Path) :
  fst (get_embedded_python_exe env s) = Ok (Some py) ->
  spawned (snd (Uninstall.cleanup_pyside6_cache env s))
  = (spawned s ++ [site_query_cmd env py])%list.
Proof.
  intros H. rewrite (cleanup_run _ _ _ H). cbv zeta.
  destruct (child env (site_query_cmd env py) (fs s) (importable s))
    as [|rc out f i] eqn:C; [reflexivity|].
  destruct (rc =? 0)%Z; [|reflexivity].
  destruct (Uninstall.pyside_paths env f (PurePath (windows env) (strip out)))
    as [|h paths]; [reflexivity|].
  destruct (remove_all_spec env (h :: paths)
              (logged (after_child (asked s (site_query_cmd env py)) f i)
                 [(Display, "🧹 Found potential PySide6 remnants:")]))
    as (s' & R & _ & _ & (_ & S & _) & _).
  rewrite R. cbn [snd]. now rewrite S.
Qed.

Lemma cleanup_spawns_the_query_only_witness :
  fst (get_embedded_python_exe (Sample.linux Sample.working_child)
         (Sample.start Sample.engine_fs []))
  = Ok (Some (Sample.P Sample.python3))
  /\ spawned (snd (Uninstall.cleanup_pyside6_cache (Sample.linux Sample.working_child)
                     (Sample.start Sample.engine_fs [])))
     = [[Sample.python3; "-c"; "import site; print(site.getsitepackages()[0])"]].
Proof.
  split; [reflexivity|].
  exact (cleanup_spawns_the_query_only (Sample.linux Sample.working_child)
           (Sample.start Sample.engine_fs []) (Sample.P Sample.python3) eq_refl).
Defined.

Lemma names_prefix_length (a c : list string) :
  names_prefix a c = true -> length a <= length c.
Proof.
  revert c. induction a as [|x a IH]; intros [|y c]; simpl; try discriminate; try lia.
  intros H. apply andb_true_iff in H as [_ H]. apply IH in H. lia.
Qed.

Lemma names_prefix_app_l (a b c : list string) :
  names_prefix (a ++ b) c = true -> names_prefix a c = true.
Proof.
  revert c. induction a as [|x a IH]; intros c; [reflexivity|].
  destruct c as [|y c]; simpl; [discriminate|].
  intros H. apply andb_true_iff in H as [Hx H]. rewrite Hx. now apply IH.
Qed.

(** What lies at or below a child of [d] lies strictly below [d]. *)
Lemma below_child_is_strictly_below (d h p : Path) :
  is_child d h = true -> beneath h p = true -> strictly_below d p = true.
Proof.
  unfold is_child, beneath, strictly_below.
  intros Hc Hb. apply andb_true_iff in Hc as [Hc Hn].
  apply andb_true_iff in Hc as [Ha Hr].
  apply andb_true_iff in Hb as [Hb Hp].
  apply String.eqb_eq in Ha, Hb. apply names_eqb_eq in Hr.
  apply negb_true_iff, Nat.eqb_neq in Hn.
  assert (E : names h = (names d ++ [last (names h) ""])%list).
  { rewrite <- Hr. apply app_removelast_last. now destruct (names h). }
  rewrite E in Hp. apply andb_true_iff. split.
  - unfold beneath. rewrite <- Ha, Hb, String.eqb_refl. simpl.
    now apply names_prefix_app_l in Hp.
  - apply names_prefix_length in Hp. rewrite length_app in Hp. simpl in Hp.
    apply Nat.ltb_lt. lia.
Qed.

(** What the removals of the cleanup amount to, seen from the state the site
    query left. *)
Lemma cleanup_removals
    (env : Env) (s : State) (py : Path) (out : string) (f : FS) (i : list string) :
  fst (get_embedded_python_exe env s) = Ok (Some py) ->
  child env (site_query_cmd env py) (fs s) (importable s) = Exited 0 out f i ->
  let hits := Uninstall.pyside_paths env f (PurePath (windows env) (strip out)) in
  let final := fs (snd (Uninstall.cleanup_pyside6_cache env s)) in
  incl final f
  /\ (forall g : Path * node -> bool,
        (forall e h, In h hits -> beneath h (fst e) = true -> g e = false) ->
        filter g final = filter g f)
  /\ (forall h, In h hits -> removable f h -> exists_ final h = false).
Proof.
  intros H C. cbv zeta. rewrite (cleanup_run _ _ _ H). cbv zeta. rewrite C.
  cbn [Z.eqb].
  destruct (Uninstall.pyside_paths env f (PurePath (windows env) (strip out)))
    as [|h0 paths] eqn:E.
  - cbn [snd fs logged after_child asked].
    split; [apply incl_refl|]. split; [reflexivity | intros h []].
  - destruct (remove_all_spec env (h0 :: paths)
                (logged (after_child (asked s (site_query_cmd env py)) f i)
                   [(Display, "🧹 Found potential PySide6 remnants:")]))
      as (s' & R & _ & _ & (_ & _ & I & F) & G & _).
    rewrite R. cbn [snd]. split; [exact I|]. split; [exact F | exact G].
Qed.

(** X12. The cleanup stays inside the directory the site query printed:
    entries that are not strictly below it (the directory itself and whatever
    lies elsewhere) are kept as they are and in place. *)
Theorem cleanup_stays_inside_site_packages
    (env : Env) (s : State) (py : Path) (out : string) (f : FS) (i : list string) :
  fst (get_embedded_python_exe env s) = Ok (Some py) ->
  child env (site_query_cmd env py) (fs s) (importable s) = Exited 0 out f i ->
  let site_packages := PurePath (windows env) (strip out) in
  filter (fun e => negb (strictly_below site_packages (fst e)))
         (fs (snd (Uninstall.cleanup_pyside6_cache env s)))
  = filter (fun e => negb (strictly_below site_packages (fst e))) f.
Proof.
  intros H C. cbv zeta.
  destruct (cleanup_removals env s py out f i H C) as (_ & F & _).
  apply F. intros e h Hh Hb. apply negb_false_iff.
  apply pyside_paths_match in Hh as (_ & Hc & _).
  now apply (below_child_is_strictly_below _ h).
Qed.

Lemma cleanup_stays_inside_site_packages_witness :
  fst (get_embedded_python_exe (Sample.linux Sample.working_child)
         (Sample.start Sample.engine_fs []))
  = Ok (Some (Sample.P Sample.python3))
  /\ child (Sample.linux Sample.working_child)
       (site_query_cmd (Sample.linux Sample.working_child) (Sample.P Sample.python3))
       Sample.engine_fs []
     = Exited 0 (Sample.site_packages ++ Sample.newline) Sample.engine_fs []
  /\ filter (fun e => negb (strictly_below (Sample.P Sample.site_packages) (fst e)))
       (fs (snd (Uninstall.cleanup_pyside6_cache (Sample.linux Sample.working_child)
                   (Sample.start Sample.engine_fs []))))
     = firstn 6 Sample.engine_fs.
Proof.
  split; [reflexivity|]. split; [reflexivity|].
  exact (eq_trans
           (cleanup_stays_inside_site_packages (Sample.linux Sample.working_child)
              (Sample.start Sample.engine_fs []) (Sample.P Sample.python3)
              (Sample.site_packages ++ Sample.newline) Sample.engine_fs []
              eq_refl eq_refl)
           eq_refl).
Defined.

(** X13. When nothing at or below the collected paths is locked, the cleanup
    is complete: afterwards no child of the site-packages directory matches any
    of the three patterns, so a second collection would find nothing. *)
Theorem cleanup_leaves_no_match_when_nothing_is_locked
    (env : Env) (s : State) (py : Path) (out : string) (f : FS) (i : list string) :
  fst (get_embedded_python_exe env s) = Ok (Some py) ->
  child env (site_query_cmd env py) (fs s) (importable s) = Exited 0 out f i ->
  let site_packages := PurePath (windows env) (strip out) in
  (forall h, In h (Uninstall.pyside_paths env f site_packages) -> removable f h) ->
  Uninstall.pyside_paths env (fs (snd (Uninstall.cleanup_pyside6_cache env s)))
    site_packages = [].
Proof.
  intros H C. cbv zeta. intros Hr.
  destruct (cleanup_removals env s py out f i H C) as (I & _ & G).
  cbv zeta in I, G.
  set (final := fs (snd (Uninstall.cleanup_pyside6_cache env s))) in *.
  destruct (Uninstall.pyside_paths env final (PurePath (windows env) (strip out)))
    as [|h l] eqn:E; [reflexivity|].
  exfalso.
  assert (Hin : In h (Uninstall.pyside_paths env final
                        (PurePath (windows env) (strip out))))
    by (rewrite E; now left).
  unfold Uninstall.pyside_paths in Hin. apply in_flat_map in Hin as (pat & Hpat & Hin).
  unfold Path_glob in Hin. apply in_map_iff in Hin as ([q n] & Hq & He).
  simpl in Hq. subst q. apply filter_In in He as [He Hm].
  assert (Hf : In h (Uninstall.pyside_paths env f (PurePath (windows env) (strip out)))).
  { unfold Uninstall.pyside_paths. apply in_flat_map. exists pat. split; [exact Hpat|].
    unfold Path_glob. apply in_map_iff. exists (h, n). split; [reflexivity|].
    apply filter_In. split; [now apply I | exact Hm]. }
  specialize (G h Hf (Hr h Hf)).
  apply In_exists in He. congruence.
Qed.

Lemma cleanup_leaves_no_match_when_nothing_is_locked_witness :
  fst (get_embedded_python_exe (Sample.linux Sample.working_child)
         (Sample.start Sample.twice_fs []))
  = Ok (Some (Sample.P Sample.python3))
  /\ (forall h,
        In h (Uninstall.pyside_paths (Sample.linux Sample.working_child) Sample.twice_fs
                (Sample.P Sample.site_packages)) ->
        removable Sample.twice_fs h)
  /\ Uninstall.pyside_paths (Sample.linux Sample.working_child)
       (fs (snd (Uninstall.cleanup_pyside6_cache (Sample.linux Sample.working_child)
                   (Sample.start Sample.twice_fs []))))
       (Sample.P Sample.site_packages) = [].
Proof.
  assert (R : forall h,
             In h (Uninstall.pyside_paths (Sample.linux Sample.working_child)
                     Sample.twice_fs (Sample.P Sample.site_packages)) ->
             removable Sample.twice_fs h).
  { intros h _ e He _.
    repeat (destruct He as [<-|He]; [reflexivity|]). contradiction. }
  split; [reflexivity|]. split; [exact R|].
  exact (cleanup_leaves_no_match_when_nothing_is_locked
           (Sample.linux Sample.working_child) (Sample.start Sample.twice_fs [])
           (Sample.P Sample.python3) (Sample.site_packages ++ Sample.newline)
           Sample.twice_fs [] eq_refl eq_refl R).
Defined.

(** *** What the uninstall entry point spawns *)

Lemma show_info_spawned (env : Env) (s : State) :
  exists l,
    spawned (snd (Uninstall.get_pyside6_installation_info env s)) = (spawned s ++ l)%list
    /\ length l <= 1 /\ Forall (fun c => is_pip "show" c = true) l.
Proof.
  destruct (get_embedded_cases env s) as [(py & Hpy)|Hn].
  - assert (H : fst (get_embedded_python_exe env s) = Ok (Some py)) by now rewrite Hpy.
    rewrite (show_info_run _ _ _ H). cbv zeta.
    exists [[str (windows env) py; "-m"; "pip"; "show"; "PySide6"]].
    split; [now destruct (child _ _ _ _)|]. split; [simpl; lia|]. now repeat constructor.
  - assert (H : fst (get_embedded_python_exe env s) = Ok None) by now rewrite Hn.
    destruct (without_interpreter env "PySide6" None s H) as (_ & _ & C & _).
    rewrite C. exists []. split; [cbn; now rewrite app_nil_r|].
    split; [simpl; lia | constructor].
Qed.

Lemma pip_uninstall_spawned (env : Env) (extra : option (list string)) (s : State) :
  exists l,
    spawned (snd (Uninstall.pip_uninstall_from_engine_sitepackages env "PySide6" extra s))
    = (spawned s ++ l)%list
    /\ length l <= 1 /\ Forall (fun c => is_pip "uninstall" c = true) l.
Proof.
  destruct (get_embedded_cases env s) as [(py & Hpy)|Hn].
  - assert (H : fst (get_embedded_python_exe env s) = Ok (Some py)) by now rewrite Hpy.
    rewrite (pip_uninstall_run _ _ _ _ _ H). cbv zeta.
    exists [pip_uninstall_cmd env py "PySide6" (extra_of extra)].
    split; [destruct (child _ _ _ _) as [|rc ? ? ?]; [|destruct (rc =? 0)%Z];
            reflexivity|].
    split; [simpl; lia|]. now repeat constructor.
  - assert (H : fst (get_embedded_python_exe env s) = Ok None) by now rewrite Hn.
    destruct (without_interpreter env "PySide6" extra s H) as (_ & B & _).
    rewrite B. exists []. split; [cbn; now rewrite app_nil_r|].
    split; [simpl; lia | constructor].
Qed.

Lemma prelude_spawned (env : Env) (s : State) :
  spawned (snd (uninstall_prelude env s))
  = spawned (snd (Uninstall.get_pyside6_installation_info env s)).
Proof.
  unfold uninstall_prelude. run.
  destruct (Uninstall.get_pyside6_installation_info env s) as [[info|e] s0];
    [|reflexivity].
  now destruct (truthy_str info).
Qed.

(** X14. Whatever happens, [uninstall_pyside6] asks for at most two
    processes and for nothing but pip: at most one [pip show], and after it at
    most one [pip uninstall].  It never runs the cleanup. *)
Theorem uninstall_spawns_show_then_uninstall_at_most (env : Env) (s : State) :
  exists shows uninstalls,
    spawned (snd (Uninstall.uninstall_pyside6 env s))
    = (spawned s ++ shows ++ uninstalls)%list
    /\ length shows <= 1 /\ length uninstalls <= 1
    /\ Forall (fun c => is_pip "show" c = true) shows
    /\ Forall (fun c => is_pip "uninstall" c = true) uninstalls.
Proof.
  rewrite uninstall_run. destruct (resolvable "PySide6" s).
  2:{ exists [], []. cbn. rewrite app_nil_r. repeat split; try lia; constructor. }
  destruct (show_info_spawned env s) as (l1 & S1 & N1 & F1).
  rewrite <- prelude_spawned in S1.
  destruct (uninstall_prelude env s) as [[[]|e] s1]; cbn [snd] in S1.
  2:{ exists l1, []. cbn [snd]. rewrite app_nil_r.
      repeat split; try assumption; try (simpl; lia); constructor. }
  destruct (pip_uninstall_spawned env None s1) as (l2 & S2 & N2 & F2).
  exists l1, l2.
  assert (G : spawned (snd (Uninstall.pip_uninstall_from_engine_sitepackages
                              env "PySide6" None s1))
              = (spawned s ++ l1 ++ l2)%list)
    by (rewrite S2, S1; apply eq_sym, app_assoc).
  destruct (Uninstall.pip_uninstall_from_engine_sitepackages env "PySide6" None s1)
    as [[[|]|e] s2]; cbn [snd] in G |- *;
    [destruct (resolvable "PySide6" s2)| |]; cbn [snd logged spawned];
    repeat split; assumption.
Qed.

(** X15. Run as the main module, the uninstall script calls
    [uninstall_pyside6] once more after its main block.  So when the main block
    has left the package unresolvable (it uninstalled it, or it was absent), the
    script's last call only reports that the package is not installed and
    yields [false], asking for no further process; the script yields [true]
    only if the package is still resolvable after the main block. *)
Theorem trailing_call_after_main_block (env : Env) (s : State) :
  (forall s1,
     Uninstall.main_block env s = (Ok tt, s1) ->
     resolvable "PySide6" s1 = false ->
     Uninstall.script env true s
     = (Ok false,
        logged s1 [(Display,
                    "❌ PySide6 is not installed in the engine's Python environment.")]))
  /\ (fst (Uninstall.script env true s) = Ok true ->
      exists s1, Uninstall.main_block env s = (Ok tt, s1)
                 /\ resolvable "PySide6" s1 = true).
Proof.
  unfold Uninstall.script. split.
  - intros s1 M R. rewrite (bind_Ok _ _ _ _ _ M), uninstall_run. now rewrite R.
  - unfold bind. destruct (Uninstall.main_block env s) as [[[]|e] s1]; [|discriminate].
    rewrite uninstall_run. destruct (resolvable "PySide6" s1) eqn:R; [|discriminate].
    intros _. now exists s1.
Qed.

Lemma trailing_call_after_main_block_witness :
  Uninstall.main_block (Sample.linux Sample.working_child)
    (Sample.start Sample.engine_fs ["PySide6"])
  = (Ok tt, snd (Uninstall.main_block (Sample.linux Sample.working_child)
                   (Sample.start Sample.engine_fs ["PySide6"])))
  /\ resolvable "PySide6"
       (snd (Uninstall.main_block (Sample.linux Sample.working_child)
               (Sample.start Sample.engine_fs ["PySide6"]))) = false
  /\ fst (Uninstall.script (Sample.linux Sample.working_child) true
            (Sample.start Sample.engine_fs ["PySide6"])) = Ok false.
Proof.
  assert (A : Uninstall.main_block (Sample.linux Sample.working_child)
                (Sample.start Sample.engine_fs ["PySide6"])
              = (Ok tt, snd (Uninstall.main_block (Sample.linux Sample.working_child)
                               (Sample.start Sample.engine_fs ["PySide6"]))))
    by (vm_compute; reflexivity).
  assert (B : resolvable "PySide6"
                (snd (Uninstall.main_block (Sample.linux Sample.working_child)
                        (Sample.start Sample.engine_fs ["PySide6"]))) = false)
    by (vm_compute; reflexivity).
  split; [exact A|]. split; [exact B|].
  exact (f_equal fst
           (proj1 (trailing_call_after_main_block (Sample.linux Sample.working_child)
                     (Sample.start Sample.engine_fs ["PySide6"])) _ A B)).
Defined.

(** X16. With the interpreter resolved, the uninstaller's command line is
    [<py> -m pip uninstall --yes <package>] followed by the extra arguments
    (none for [None] as for an empty list): it names the package it was given.
    The command is written to the log, joined by blanks, before it is handed
    to the subprocess module, whatever the child then does. *)
Theorem uninstall_command_names_the_package
    (env : Env) (package : string) (extra : option (list string))
    (s : State) (py : Path) :
  fst (get_embedded_python_exe env s) = Ok (Some py) ->
  let cmd := ([str (windows env) py; "-m"; "pip"; "uninstall"; "--yes"; package]
                ++ extra_of extra)%list in
  let r := Uninstall.pip_uninstall_from_engine_sitepackages env package extra s in
  spawned (snd r) = (spawned s ++ [cmd])%list
  /\ nth 5 cmd "" = package
  /\ exists rest,
       log (snd r) = (log s ++ (Display, ("Running: " ++ join " " cmd)%string) :: rest)%list.
Proof.
  intros H. cbv zeta. rewrite (pip_uninstall_run _ _ _ _ _ H). cbv zeta.
  unfold pip_uninstall_cmd.
  split; [|split; [reflexivity|]].
  - destruct (child _ _ _ _) as [|rc ? ? ?]; [|destruct (rc =? 0)%Z]; reflexivity.
  - destruct (child _ _ _ _) as [|rc ? ? ?]; [|destruct (rc =? 0)%Z];
      cbn [snd log logged after_child asked]; eexists;
      rewrite <- ?app_assoc; reflexivity.
Qed.

Lemma uninstall_command_names_the_package_witness :
  fst (get_embedded_python_exe (Sample.linux Sample.no_child)
         (Sample.start Sample.engine_fs []))
  = Ok (Some (Sample.P Sample.python3))
  /\ spawned (snd (Uninstall.pip_uninstall_from_engine_sitepackages
                     (Sample.linux Sample.no_child) "shiboken6" (Some ["--no-input"])
                     (Sample.start Sample.engine_fs [])))
     = [[Sample.python3; "-m"; "pip"; "uninstall"; "--yes"; "shiboken6"; "--no-input"]].
Proof.
  split; [reflexivity|].
  exact (proj1 (uninstall_command_names_the_package (Sample.linux Sample.no_child)
                  "shiboken6" (Some ["--no-input"]) (Sample.start Sample.engine_fs [])
                  (Sample.P Sample.python3) eq_refl)).
Defined.
